(** * Trade simulator, position sizer and risk gate: a shallow embedding

    The development follows the Python sources module by module:

    - [Config]          src/config.py            (the constants the code reads)
    - [PositionSizing]  src/position_sizing.py   ([PositionSizer.calculate_shares])
    - [Risk]            src/risk.py              ([RiskManager.check_pre_trade])
    - [Strategies]      src/strategies/momentum.py ([MomentumStrategy.check_exit])
    - [Backtest]        src/backtest.py          ([Backtester._find_exit],
                        [_execute_trades], [_calculate_equity_curve] and the
                        drawdown lines of [_calculate_metrics])

    Modelling conventions.
    - In the simulator, the risk checks and the report a Python [float] is an
      exact rational ([Q]); a missing value ([NaN] in a signal column) is
      [None].  Rounding of binary floating point is outside that part of the
      model.
    - Where rounding decides the outcome, in the final validation of
      [PositionSizer.calculate_shares], the sizer is modelled a second time
      on IEEE binary64 numbers (module [Double]): Python's [float] is the
      primitive [float], [int(x)] raises on [nan] and on an infinity, and
      [a / b] raises on a zero divisor.
    - A Python [int] is a [Z]; [int(x)] on a float truncates toward zero.
    - A DataFrame is the list of its rows in index order.  Index labels are
      timestamps ([Z]); the price series has one row per label, so that
      [df.loc[idx:].iloc[1:]] is the list of rows after the row labelled [idx].
    - f-strings that format numbers into a message are kept as the constant
      part of the message. *)

From Stdlib Require Import ZArith QArith Qround Qabs List String Bool Lia Lqa Sorted.
From Stdlib Require Import Floats.
Import ListNotations.
Local Open Scope Q_scope.
Local Open Scope string_scope.
Local Open Scope list_scope.

(** * Part I: the program *)

(** ** Python primitives *)

(** [a < b] on floats, as a boolean. *)
Definition Qlt_bool (a b : Q) : bool := negb (Qle_bool b a).

(** [int(x)]: truncation toward zero. *)
Definition py_int (x : Q) : Z := Z.quot (Qnum x) (Zpos (Qden x)).

(** [max(a, b)]: the first argument unless the second is strictly greater. *)
Definition py_max (a b : Q) : Q := if Qlt_bool a b then b else a.

(** What a call produces: a value, or a raised exception. *)
Inductive exn := ZeroDivisionError.

Inductive pyresult (A : Type) :=
| Returned (a : A)
| Raised (e : exn).
Arguments Returned {A} a.
Arguments Raised {A} e.

Definition bind {A B} (c : pyresult A) (k : A -> pyresult B) : pyresult B :=
  match c with
  | Returned a => k a
  | Raised e => Raised e
  end.

Notation "x <- c ;; k" := (bind c (fun x => k))
  (at level 61, c at next level, right associativity).

(** [a / b] on Python floats: raises when the divisor is zero. *)
Definition py_div (a b : Q) : pyresult Q :=
  if Qeq_bool b 0 then Raised ZeroDivisionError else Returned (a / b).

(** A numpy float64 as far as division needs it: dividing by zero gives an
    infinity or [nan] instead of raising. *)
Inductive npfloat :=
| Finite (x : Q)
| PosInf
| NegInf
| NaN.

Definition np_div (a b : Q) : npfloat :=
  if Qeq_bool b 0 then
    if Qeq_bool a 0 then NaN else if Qlt_bool 0 a then PosInf else NegInf
  else Finite (a / b).

(** ** src/config.py *)

Module Config.
Definition MAX_POSITIONS : Z := 2.
Definition MAX_POSITION_SIZE_PCT : Q := 30 # 100.
Definition MAX_RISK_PER_TRADE_PCT : Q := 1 # 100.
Definition MIN_STOCK_PRICE : Q := 2.
Definition MIN_AVG_DOLLAR_VOLUME : Q := 1000000.
Definition COMMISSION_PER_TRADE : Q := 0.
Definition SLIPPAGE_PCT : Q := 1 # 1000.
Definition LEVERAGE_ALLOWED : bool := false.
End Config.

(** ** src/position_sizing.py *)

Module PositionSizing.

Record PositionSizer := {
  equity : Q;
  max_position_pct : Q;
  max_risk_pct : Q
}.

(** [PositionSizer(equity)] with the defaults of the constructor. *)
Definition new (equity : Q) : PositionSizer :=
  {| equity := equity;
     max_position_pct := Config.MAX_POSITION_SIZE_PCT;
     max_risk_pct := Config.MAX_RISK_PER_TRADE_PCT |}.

(** The dict [calculate_shares] returns. *)
Record SizingResult := {
  shares : Z;
  position_value : Q;
  position_pct : Q;
  risk_dollars : Q;
  risk_pct : Q;
  risk_per_share : Q;
  valid : bool;
  reason : string
}.

Definition initial_result : SizingResult :=
  {| shares := 0; position_value := 0; position_pct := 0;
     risk_dollars := 0; risk_pct := 0; risk_per_share := 0;
     valid := false; reason := "" |}.

Definition with_reason (r : SizingResult) (msg : string) : SizingResult :=
  {| shares := shares r; position_value := position_value r;
     position_pct := position_pct r; risk_dollars := risk_dollars r;
     risk_pct := risk_pct r; risk_per_share := risk_per_share r;
     valid := valid r; reason := msg |}.

Definition with_risk_per_share (r : SizingResult) (x : Q) : SizingResult :=
  {| shares := shares r; position_value := position_value r;
     position_pct := position_pct r; risk_dollars := risk_dollars r;
     risk_pct := risk_pct r; risk_per_share := x;
     valid := valid r; reason := reason r |}.

Definition calculate_shares (self : PositionSizer)
    (entry_price stop_price : Q) (risk_pct_arg : option Q) : SizingResult :=
  let risk_pct :=
    match risk_pct_arg with None => max_risk_pct self | Some r => r end in
  let result := initial_result in
  (* Validation *)
  if Qle_bool entry_price 0 then
    with_reason result "Entry price must be positive"
  else if Qle_bool stop_price 0 then
    with_reason result "Stop price must be positive"
  else if Qle_bool entry_price stop_price then
    with_reason result "Stop price must be below entry price (long only)"
  else if Qle_bool (equity self) 0 then
    with_reason result "Equity must be positive"
  else
    let risk_per_share := entry_price - stop_price in
    let result := with_risk_per_share result risk_per_share in
    let max_risk_dollars := equity self * risk_pct in
    let shares_by_risk := py_int (max_risk_dollars / risk_per_share) in
    let max_position_dollars := equity self * max_position_pct self in
    let shares_by_position_size := py_int (max_position_dollars / entry_price) in
    let shares := Z.min shares_by_risk shares_by_position_size in
    if (shares <? 1)%Z then
      with_reason result
        "Position size rounds to 0 shares (insufficient equity or risk too small)"
    else
      let position_value := inject_Z shares * entry_price in
      let position_pct := position_value / equity self in
      let risk_dollars := inject_Z shares * risk_per_share in
      let actual_risk_pct := risk_dollars / equity self in
      (* Final validation *)
      if Qlt_bool (max_position_pct self) position_pct then
        with_reason result "Position size exceeds max"
      else if Qlt_bool (max_risk_pct self) actual_risk_pct then
        with_reason result "Risk exceeds max"
      else
        {| shares := shares; position_value := position_value;
           position_pct := position_pct; risk_dollars := risk_dollars;
           risk_pct := actual_risk_pct;
           risk_per_share := risk_per_share;
           valid := true; reason := "OK" |}.

End PositionSizing.

(** ** src/risk.py *)

Module Risk.

(** A position dict: ['symbol'] is always there, ['market_value'] is read
    with [p.get('market_value', 0)]. *)
Record Position := {
  symbol : string;
  market_value : option Q
}.

(** The [liquidity_check] dict, read with [.get('avg_dollar_volume', 0)]. *)
Definition dict := list (string * Q).

Fixpoint dict_get (d : dict) (key : string) (default : Q) : Q :=
  match d with
  | [] => default
  | (k, v) :: rest => if String.eqb k key then v else dict_get rest key default
  end.

(** Truth value of an [Optional[dict]]: [None] and the empty dict are false. *)
Definition truthy (d : option dict) : bool :=
  match d with
  | None => false
  | Some [] => false
  | Some (_ :: _) => true
  end.

Record RiskManager := {
  equity : Q;
  max_positions : Z;
  max_position_pct : Q;
  max_risk_pct : Q
}.

Definition new (equity : Q) : RiskManager :=
  {| equity := equity;
     max_positions := Config.MAX_POSITIONS;
     max_position_pct := Config.MAX_POSITION_SIZE_PCT;
     max_risk_pct := Config.MAX_RISK_PER_TRADE_PCT |}.

Definition msg_max_positions := "Max positions reached".
Definition msg_position_size := "Position size exceeds max".
Definition msg_risk := "Risk exceeds max".
Definition msg_min_price := "Price below minimum".
Definition msg_liquidity := "Avg dollar volume below minimum".
Definition msg_leverage :=
  "Total exposure would exceed equity (leverage not allowed)".
Definition msg_duplicate (symbol : string) : string :=
  ("Already have position in " ++ symbol)%string.
Definition msg_passed := "All risk checks passed".

(** [any(p['symbol'] == symbol for p in current_positions)] *)
Definition has_symbol (sym : string) (current_positions : list Position) : bool :=
  existsb (fun p => String.eqb (symbol p) sym) current_positions.

(** [sum(p.get('market_value', 0) for p in current_positions)] *)
Definition sum_market_value (current_positions : list Position) : Q :=
  fold_left
    (fun acc p => acc + match market_value p with Some v => v | None => 0 end)
    current_positions 0.

(** The two locals [approved] and [reasons], as they stand after a failed
    check. *)
Definition reject (st : bool * list string) (msg : string) : bool * list string :=
  (false, (snd st ++ [msg])%list).

Definition check_pre_trade (self : RiskManager) (sym : string)
    (entry_price position_value risk_dollars : Q)
    (current_positions : list Position) (liquidity_check : option dict)
    : pyresult (bool * list string) :=
  let st : bool * list string := (true, []) in
  (* Check 1: Maximum positions *)
  let st :=
    if (max_positions self <=? Z.of_nat (List.length current_positions))%Z then
      if negb (has_symbol sym current_positions)
      then reject st msg_max_positions else st
    else st in
  (* Check 2: Position size limit *)
  position_pct <- py_div position_value (equity self) ;;
  let st :=
    if Qlt_bool (max_position_pct self) position_pct
    then reject st msg_position_size else st in
  (* Check 3: Risk limit *)
  risk_pct <- py_div risk_dollars (equity self) ;;
  let st :=
    if Qlt_bool (max_risk_pct self) risk_pct
    then reject st msg_risk else st in
  (* Check 4: Minimum price *)
  let st :=
    if Qlt_bool entry_price Config.MIN_STOCK_PRICE
    then reject st msg_min_price else st in
  (* Check 5: Liquidity *)
  let st :=
    if truthy liquidity_check then
      let avg_volume :=
        match liquidity_check with
        | Some d => dict_get d "avg_dollar_volume" 0
        | None => 0
        end in
      if Qlt_bool avg_volume Config.MIN_AVG_DOLLAR_VOLUME
      then reject st msg_liquidity else st
    else st in
  (* Check 6: Long-only constraint: informational, nothing to do *)
  (* Check 7: Leverage check *)
  let st :=
    if negb Config.LEVERAGE_ALLOWED then
      let total_exposure := sum_market_value current_positions in
      let total_exposure := total_exposure + position_value in
      if Qlt_bool (equity self * (101 # 100)) total_exposure
      then reject st msg_leverage else st
    else st in
  (* Check 8: Duplicate position *)
  let st :=
    if has_symbol sym current_positions
    then reject st (msg_duplicate sym) else st in
  let st :=
    if fst st then (fst st, (snd st ++ [msg_passed])%list) else st in
  Returned st.

(** *** The battery as the specification words it

    Seven checks in a fixed order, each either failing with its message or
    passing; a check that does not apply passes. *)
Record check := {
  fails : bool;
  message : string
}.

Definition battery (self : RiskManager) (sym : string)
    (entry_price position_value risk_dollars : Q)
    (current_positions : list Position) (liquidity_check : option dict)
    : list check :=
  [ {| fails := (max_positions self <=? Z.of_nat (List.length current_positions))%Z
                && negb (has_symbol sym current_positions);
       message := msg_max_positions |};
    {| fails := Qlt_bool (max_position_pct self) (position_value / equity self);
       message := msg_position_size |};
    {| fails := Qlt_bool (max_risk_pct self) (risk_dollars / equity self);
       message := msg_risk |};
    {| fails := Qlt_bool entry_price Config.MIN_STOCK_PRICE;
       message := msg_min_price |};
    {| fails := match liquidity_check with
                | Some ((_ :: _) as d) =>
                    Qlt_bool (dict_get d "avg_dollar_volume" 0)
                             Config.MIN_AVG_DOLLAR_VOLUME
                | _ => false
                end;
       message := msg_liquidity |};
    {| fails := negb Config.LEVERAGE_ALLOWED
                && Qlt_bool (equity self * (101 # 100))
                            (sum_market_value current_positions + position_value);
       message := msg_leverage |};
    {| fails := has_symbol sym current_positions;
       message := msg_duplicate sym |} ].

Definition failures (cs : list check) : list string :=
  map message (filter fails cs).

End Risk.

(** ** src/strategies/momentum.py *)

Module Strategies.

(** The optional hook [check_exit(entry_price, current_price, current_atr,
    original_stop)] of a strategy object; [None] when the object has no
    such attribute. *)
Definition exit_policy := Q -> Q -> Q -> Q -> bool * Q * string.

Record Strategy := {
  name : string;
  check_exit : option exit_policy
}.



(** A strategy object without the hook. *)
Definition plain (n : string) : Strategy :=
  {| name := n; check_exit := None |}.

End Strategies.

(** ** src/backtest.py: the data *)

(** One row of the annotated price frame.  [ts] is the row's index label;
    [atr_14] is [None] when the column is absent or holds [NaN]; [entry],
    [stop] and [target] are [None] where the frame holds [NaN]. *)
Record Bar := {
  ts : Z;
  high : Q;
  low : Q;
  close : Q;
  atr_14 : option Q;
  signal : Z;
  entry : option Q;
  stop : option Q;
  target : option Q
}.

Definition DataFrame := list Bar.

(** One row of the trade ledger: the dict appended by [_execute_trades]. *)
Module Ledger.
Record Trade := {
  entry_date : Z;
  exit_date : Z;
  entry_price : Q;
  exit_price : Q;
  shares : Z;
  position_value : Q;
  stop_price : Q;
  target_price : Q;
  gross_pnl : Q;
  commission : Q;
  slippage : Q;
  net_pnl : Q;
  return_pct : Q;
  r_multiple : Q;
  exit_reason : string;
  equity_after : Q
}.
End Ledger.

(** A [pd.Series] of floats: (label, value) pairs in order. *)
Definition Series := list (Z * Q).

(** ** src/backtest.py: [Backtester] *)

Module Backtest.
Import Strategies.

Record Backtester := {
  initial_capital : Q;
  commission : Q;
  slippage_pct : Q
}.

(** [Backtester.__init__]: stores its three arguments. *)
Definition __init__ (initial_capital commission slippage_pct : Q)
    : pyresult Backtester :=
  Returned {| initial_capital := initial_capital;
              commission := commission;
              slippage_pct := slippage_pct |}.

(** [df.loc[entry_idx:]]: the rows from the first one labelled [entry_idx]. *)
Fixpoint loc_from (df : DataFrame) (entry_idx : Z) : DataFrame :=
  match df with
  | [] => []
  | bar :: rest =>
      if (ts bar =? entry_idx)%Z then bar :: rest else loc_from rest entry_idx
  end.

(** [df.loc[entry_idx:].iloc[1:]] *)
Definition future_data (df : DataFrame) (entry_idx : Z) : DataFrame :=
  tl (loc_from df entry_idx).

(** What one pass through the loop body of [_find_exit] observes: the bar,
    the value of [current_stop] on entering the body, and the arguments of
    the call to [strategy.check_exit] when the call is made. *)
Record event := {
  ev_idx : Z;
  ev_current_stop : Q;
  ev_policy_args : option (Q * Q * Q * Q)
}.

(** How one pass ends: with a [return], or with the next value of
    [current_stop]. *)
Inductive step :=
| Exit (r : Z * Q * string)
| Continue (current_stop : Q).

(** The body of [for idx, bar in future_data.iterrows()]. *)
Definition exit_step (strategy : Strategy)
    (entry_price stop_price target_price current_stop : Q) (bar : Bar)
    : step * event :=
  let idx := ts bar in
  let current_price := close bar in
  let current_atr := match atr_14 bar with Some a => a | None => 0 end in
  let quiet := {| ev_idx := idx; ev_current_stop := current_stop;
                  ev_policy_args := None |} in
  (* Check if target hit *)
  if Qle_bool target_price (high bar) then
    (Exit (idx, target_price, "target"), quiet)
  (* Check if stop hit *)
  else if Qle_bool (low bar) current_stop then
    (Exit (idx, current_stop, "stop"), quiet)
  else
    (* Update trailing stop if strategy supports it *)
    match check_exit strategy with
    | Some policy =>
        let args := (entry_price, current_price, current_atr, stop_price) in
        let '(should_exit, new_stop, reason) :=
          policy entry_price current_price current_atr stop_price in
        let called := {| ev_idx := idx; ev_current_stop := current_stop;
                         ev_policy_args := Some args |} in
        let current_stop := py_max current_stop new_stop in
        if should_exit then (Exit (idx, current_price, reason), called)
        else (Continue current_stop, called)
    | None => (Continue current_stop, quiet)
    end.

(** The [for] loop of [_find_exit], from a given [current_stop]. *)
Fixpoint find_exit_loop (strategy : Strategy)
    (entry_price stop_price target_price current_stop : Q)
    (rows : list Bar) : step * list event :=
  match rows with
  | [] => (Continue current_stop, [])
  | bar :: rest =>
      let '(s, ev) :=
        exit_step strategy entry_price stop_price target_price current_stop bar in
      match s with
      | Exit r => (Exit r, [ev])
      | Continue current_stop =>
          let '(s', evs) :=
            find_exit_loop strategy entry_price stop_price target_price
                           current_stop rest in
          (s', ev :: evs)
      end
  end.

(** [_find_exit] together with what its loop observed. *)
Definition find_exit_traced (df : DataFrame) (entry_idx : Z)
    (entry_price stop_price target_price : Q) (strategy : Strategy)
    : option (Z * Q * string) * list event :=
  let rows := future_data df entry_idx in
  let current_stop := stop_price in
  let '(s, evs) :=
    find_exit_loop strategy entry_price stop_price target_price
                   current_stop rows in
  match s with
  | Exit r => (Some r, evs)
  | Continue _ => (None, evs)   (* No exit found in data *)
  end.

Definition _find_exit (df : DataFrame) (entry_idx : Z)
    (entry_price stop_price target_price : Q) (strategy : Strategy)
    : option (Z * Q * string) :=
  fst (find_exit_traced df entry_idx entry_price stop_price target_price strategy).

(** [df[df['signal'] == 1]] *)
Definition signals (df : DataFrame) : list Bar :=
  filter (fun bar => (signal bar =? 1)%Z) df.

(** The body of [for idx, signal in signals.iterrows()], on the two locals
    [trades] and [equity]. *)
Definition execute_step (self : Backtester) (df : DataFrame)
    (strategy : Strategy) (st : list Ledger.Trade * Q) (sig : Bar)
    : list Ledger.Trade * Q :=
  let '(trades, equity) := st in
  let idx := ts sig in
  match entry sig, stop sig, target sig with
  | Some entry_price, Some stop_price, Some target_price =>
      (* Apply entry slippage (buy higher) *)
      let entry_price_actual := entry_price * (1 + slippage_pct self) in
      (* Size position *)
      let sizer := PositionSizing.new equity in
      let sizing :=
        PositionSizing.calculate_shares sizer entry_price_actual stop_price None in
      if negb (PositionSizing.valid sizing) then st
      else
        let shares := PositionSizing.shares sizing in
        let position_value := inject_Z shares * entry_price_actual in
        let entry_commission := commission self in
        (* Find exit *)
        match _find_exit df idx entry_price_actual stop_price target_price
                         strategy with
        | None => st
        | Some (exit_idx, exit_price, exit_reason) =>
            (* Apply exit slippage (sell lower) *)
            let exit_price_actual := exit_price * (1 - slippage_pct self) in
            let exit_commission := commission self in
            (* Calculate P&L *)
            let gross_pnl :=
              inject_Z shares * (exit_price_actual - entry_price_actual) in
            let costs := entry_commission + exit_commission in
            let net_pnl := gross_pnl - costs in
            (* Update equity *)
            let equity := equity + net_pnl in
            let risk := entry_price_actual - stop_price in
            let r_multiple :=
              if Qlt_bool 0 risk
              then (exit_price_actual - entry_price_actual) / risk else 0 in
            (trades ++
             [ {| Ledger.entry_date := idx;
                  Ledger.exit_date := exit_idx;
                  Ledger.entry_price := entry_price_actual;
                  Ledger.exit_price := exit_price_actual;
                  Ledger.shares := shares;
                  Ledger.position_value := position_value;
                  Ledger.stop_price := stop_price;
                  Ledger.target_price := target_price;
                  Ledger.gross_pnl := gross_pnl;
                  Ledger.commission := costs;
                  Ledger.slippage :=
                    inject_Z shares * entry_price * slippage_pct self * 2;
                  Ledger.net_pnl := net_pnl;
                  Ledger.return_pct := net_pnl / position_value;
                  Ledger.r_multiple := r_multiple;
                  Ledger.exit_reason := exit_reason;
                  Ledger.equity_after := equity |} ],
             equity)%list
        end
  | _, _, _ => st
  end.

(** The loop of [_execute_trades] with both of its locals. *)
Definition execute_loop (self : Backtester) (df : DataFrame)
    (strategy : Strategy) : list Ledger.Trade * Q :=
  fold_left (execute_step self df strategy) (signals df)
            ([], initial_capital self).

Definition _execute_trades (self : Backtester) (df : DataFrame)
    (strategy : Strategy) : list Ledger.Trade :=
  fst (execute_loop self df strategy).

Definition _calculate_equity_curve (self : Backtester)
    (trades : list Ledger.Trade) : Series :=
  match trades with
  | [] => [(0%Z, initial_capital self)]
  | first :: _ =>
      (Ledger.entry_date first, initial_capital self)
      :: map (fun trade => (Ledger.exit_date trade, Ledger.equity_after trade))
             trades
  end.

(** *** The drawdown lines of [_calculate_metrics] *)

(** [equity_curve.cummax()] *)
Fixpoint cummax_from (m : Q) (s : Series) : Series :=
  match s with
  | [] => []
  | (i, x) :: rest => let m := py_max m x in (i, m) :: cummax_from m rest
  end.

Definition cummax (s : Series) : Series :=
  match s with
  | [] => []
  | (i, x) :: rest => (i, x) :: cummax_from x rest
  end.

(** [a - b] for two series over the same index. *)
Fixpoint series_sub (a b : Series) : Series :=
  match a, b with
  | (i, x) :: a', (_, y) :: b' => (i, x - y) :: series_sub a' b'
  | _, _ => []
  end.

(** [s.max()] and [s.idxmax()]: the largest value and the label of its first
    occurrence; [None] for an empty series. *)
Fixpoint best_from (best : Z * Q) (s : Series) : Z * Q :=
  match s with
  | [] => best
  | (i, x) :: rest =>
      if Qlt_bool (snd best) x then best_from (i, x) rest
      else best_from best rest
  end.

Definition series_max (s : Series) : option Q :=
  match s with
  | [] => None
  | p :: rest => Some (snd (best_from p rest))
  end.

Definition idxmax (s : Series) : option Z :=
  match s with
  | [] => None
  | p :: rest => Some (fst (best_from p rest))
  end.

(** [s[label]]: every value stored under [label]. *)
Definition loc (s : Series) (label : Z) : list Q :=
  map snd (filter (fun p => (fst p =? label)%Z) s).

(** The value bound to [max_drawdown_pct]: a number when the label is
    unique in the index, a series when it is not. *)
Inductive pct_value :=
| PctScalar (x : npfloat)
| PctSeries (xs : list npfloat).

Definition running_max (equity_curve : Series) : Series := cummax equity_curve.

Definition drawdown (equity_curve : Series) : Series :=
  series_sub (running_max equity_curve) equity_curve.

Definition max_drawdown (equity_curve : Series) : option Q :=
  series_max (drawdown equity_curve).

Definition max_drawdown_pct (equity_curve : Series) : pct_value :=
  match max_drawdown equity_curve, idxmax (drawdown equity_curve) with
  | Some m, Some label =>
      if Qlt_bool 0 m then
        match loc (running_max equity_curve) label with
        | [d] => PctScalar (np_div m d)
        | ds => PctSeries (map (np_div m) ds)
        end
      else PctScalar (Finite 0)
  | _, _ => PctScalar (Finite 0)
  end.

(** [trades['commission'].sum()] and [trades['slippage'].sum()] *)
Definition total_commission (trades : list Ledger.Trade) : Q :=
  fold_left (fun acc t => acc + Ledger.commission t) trades 0.


(** [Backtester.run] from the point where the frame carries its signals:
    [None] when no trade was generated, otherwise the ledger with its equity
    curve. *)
Definition run (self : Backtester) (strategy : Strategy) (df : DataFrame)
    : pyresult (option (list Ledger.Trade * Series)) :=
  let trades := _execute_trades self df strategy in
  match trades with
  | [] => Returned None
  | _ :: _ => Returned (Some (trades, _calculate_equity_curve self trades))
  end.

(** Constructing a backtester and running it. *)
Definition simulate (initial_capital commission slippage_pct : Q)
    (strategy : Strategy) (df : DataFrame)
    : pyresult (option (list Ledger.Trade * Series)) :=
  self <- __init__ initial_capital commission slippage_pct ;;
  run self strategy df.



End Backtest.

(** ** Statements of the specification that are put to the test *)

Module Stated.
Import Strategies Backtest.

(** "Each trade's entry timestamp is at or after the previous trade's exit
    timestamp." *)
Fixpoint non_overlapping (trades : list Ledger.Trade) : Prop :=
  match trades with
  | [] => True
  | t1 :: rest =>
      match rest with
      | [] => True
      | t2 :: _ => (Ledger.exit_date t1 <= Ledger.entry_date t2)%Z
      end /\ non_overlapping rest
  end.

Definition sequential_trades : Prop :=
  forall (self : Backtester) (df : DataFrame) (strategy : Strategy),
    StronglySorted Z.lt (map ts df) ->
    non_overlapping (_execute_trades self df strategy).



(** "For every input it runs every applicable check", approving exactly
    when none fails, listing one reason per failed check, and answering an
    approval with the single affirmative message. *)
Definition risk_checks_accumulate : Prop :=
  forall (self : Risk.RiskManager) (sym : string)
         (entry_price position_value risk_dollars : Q)
         (current_positions : list Risk.Position)
         (liquidity_check : option Risk.dict),
  exists approved reasons,
    Risk.check_pre_trade self sym entry_price position_value risk_dollars
                         current_positions liquidity_check
    = Returned (approved, reasons) /\
    (approved = true <->
     filter Risk.fails
       (Risk.battery self sym entry_price position_value risk_dollars
                     current_positions liquidity_check) = []) /\
    (approved = false ->
     reasons = Risk.failures
       (Risk.battery self sym entry_price position_value risk_dollars
                     current_positions liquidity_check)) /\
    (approved = true -> reasons = [Risk.msg_passed]).


(** "Negative costs or non-positive capital fail the entire run." *)
Definition invalid_configuration (initial_capital commission slippage_pct : Q)
    : Prop :=
  commission < 0 \/ slippage_pct < 0 \/ initial_capital <= 0.

Definition configuration_errors_raise : Prop :=
  forall (initial_capital commission slippage_pct : Q)
         (strategy : Strategy) (df : DataFrame),
    invalid_configuration initial_capital commission slippage_pct ->
    exists e, simulate initial_capital commission slippage_pct strategy df
              = Raised e.

End Stated.

(** ** Sample series *)

Module Samples.
Import Strategies Backtest.

Definition quiet_bar (t : Z) (h l c : Q) (atr : option Q) : Bar :=
  {| ts := t; high := h; low := l; close := c; atr_14 := atr;
     signal := 0; entry := None; stop := None; target := None |}.

Definition signal_bar (t : Z) (h l c : Q) (atr : option Q) (e s g : Q) : Bar :=
  {| ts := t; high := h; low := l; close := c; atr_14 := atr;
     signal := 1; entry := Some e; stop := Some s; target := Some g |}.

(** [Backtester(initial_capital=25000.0)] with the costs of src/config.py. *)
Definition default_backtester : Backtester :=
  {| initial_capital := 25000;
     commission := Config.COMMISSION_PER_TRADE;
     slippage_pct := Config.SLIPPAGE_PCT |}.

(** Two signals on consecutive bars, one target bar after them. *)
Definition two_signals : DataFrame :=
  [ signal_bar 0 101 99 100 None 100 95 110;
    signal_bar 1 102 99 101 None 100 95 110;
    quiet_bar 2 111 100 110 None ].



(** An entry bar immediately followed by a bar that spans both the target
    and the stop. *)
Definition wide_bar : DataFrame :=
  [ signal_bar 0 101 99 100 None 100 95 110;
    quiet_bar 1 112 94 100 None ].

(** An equity curve whose largest drawdown comes before its peak. *)
Definition early_drawdown : Series :=
  [ (0%Z, 100); (1%Z, 90); (2%Z, 200); (3%Z, 190) ].

(** Two signals on consecutive bars, both stopped out by the bar after
    them. *)
Definition two_stopped : DataFrame :=
  [ signal_bar 0 101 99 100 None 100 95 110;
    signal_bar 1 102 99 101 None 100 95 110;
    quiet_bar 2 100 94 95 None ].

End Samples.

(** * Part I, continued: the code around the claims *)

(** ** src/config.py: further constants *)

Module ConfigRest.
Definition TRADING_MODE : string := "long_only".
Definition SHORTING_ALLOWED : bool := false.
Definition MARKET_HOURS_ONLY : bool := true.
Definition PULLBACK_ATR_STOP_MULT : Q := 2.
Definition PULLBACK_TRAIL_R : Q := 15 # 10.
End ConfigRest.

(** ** Python list slices *)

(** [l[start:]] for an integer [start]: a negative start counts from the
    end, and both ends are clamped to the list. *)
Definition py_slice_from {A} (l : list A) (start : Z) : list A :=
  let n := Z.of_nat (List.length l) in
  let start := if (start <? 0)%Z then Z.max (start + n) 0 else Z.min start n in
  skipn (Z.to_nat start) l.

(** ** src/position_sizing.py: the other methods of [PositionSizer] *)

Module PositionSizingRest.
Import PositionSizing.

Definition calculate_target_price (self : PositionSizer)
    (entry_price stop_price r_multiple : Q) : Q :=
  let risk := entry_price - stop_price in
  let target := entry_price + risk * r_multiple in
  target.


Definition calculate_trailing_stop (self : PositionSizer)
    (entry_price current_price atr atr_multiplier : Q)
    (original_stop : option Q) : Q :=
  let trailing_stop := current_price - atr * atr_multiplier in
  (* Don't trail below original stop *)
  let trailing_stop :=
    match original_stop with
    | Some o => py_max trailing_stop o
    | None => trailing_stop
    end in
  (* Don't trail below entry (lock in profits) *)
  let trailing_stop := py_max trailing_stop entry_price in
  trailing_stop.

End PositionSizingRest.

(** ** src/risk.py: the other methods of [RiskManager] *)

Module RiskRest.
Import Risk.

(** A position dict as [check_intraday] reads it: ['symbol'] is always
    there, the other two keys are read with [pos.get(key, 0)]. *)
Record HeldPosition := {
  held_symbol : string;
  unrealized_plpc : option Q;
  held_market_value : option Q
}.

Definition msg_large_loss := "Large unrealized loss. Verify stop is in place.".
Definition msg_outside_hours :=
  "Outside market hours. Consider closing positions.".
Definition msg_size_drift :=
  "Position size significantly exceeds limit due to appreciation. Consider taking profits.".

(** The dict [alerts]: keys in insertion order, one entry per key. *)
Definition alerts_dict := list (string * list string).

(** [alerts[key] = value] *)
Fixpoint dict_set (alerts : alerts_dict) (key : string) (value : list string)
    : alerts_dict :=
  match alerts with
  | [] => [(key, value)]
  | (k, v) :: rest =>
      if String.eqb k key then (k, value) :: rest
      else (k, v) :: dict_set rest key value
  end.

(** The alerts of one position: the body of the loop up to [if pos_alerts]. *)
Definition position_alerts (self : RiskManager) (hour : Z)
    (pos : HeldPosition) : pyresult (list string) :=
  let pos_alerts : list string := [] in
  (* Check 1: Unrealized loss *)
  let plpc := match unrealized_plpc pos with Some x => x | None => 0 end in
  let pos_alerts :=
    if Qlt_bool plpc (- (2 # 100)) then pos_alerts ++ [msg_large_loss]
    else pos_alerts in
  (* Check 2: Market hours *)
  let pos_alerts :=
    if ConfigRest.MARKET_HOURS_ONLY then
      if (hour <? 9)%Z || (16 <=? hour)%Z
      then pos_alerts ++ [msg_outside_hours] else pos_alerts
    else pos_alerts in
  (* Check 3: Position size drift *)
  let market_value :=
    match held_market_value pos with Some x => x | None => 0 end in
  if Qlt_bool 0 market_value then
    position_pct <- py_div market_value (equity self) ;;
    Returned
      (if Qlt_bool (max_position_pct self * (12 # 10)) position_pct
       then pos_alerts ++ [msg_size_drift] else pos_alerts)
  else Returned pos_alerts.

Fixpoint check_intraday_loop (self : RiskManager) (hour : Z)
    (positions : list HeldPosition) (alerts : alerts_dict)
    : pyresult alerts_dict :=
  match positions with
  | [] => Returned alerts
  | pos :: rest =>
      pos_alerts <- position_alerts self hour pos ;;
      let alerts :=
        match pos_alerts with
        | [] => alerts
        | _ :: _ => dict_set alerts (held_symbol pos) pos_alerts
        end in
      check_intraday_loop self hour rest alerts
  end.

(** [check_intraday(positions, current_time)], with [current_time.hour] for
    the time. *)
Definition check_intraday (self : RiskManager)
    (positions : list HeldPosition) (hour : Z) : pyresult alerts_dict :=
  check_intraday_loop self hour positions [].

End RiskRest.

(** ** src/strategies/pullback.py and the signal levels of momentum.py *)

Module StrategiesRest.
Import Strategies.

(** [PullbackStrategy.check_exit] *)
Definition pullback_check_exit (atr_stop_mult : Q) : exit_policy :=
  fun entry_price current_price current_atr original_stop =>
  let risk := entry_price - original_stop in
  let profit := current_price - entry_price in
  let r_multiple := if Qlt_bool 0 risk then profit / risk else 0 in
  (* Move to breakeven at +1R *)
  let new_stop := if Qle_bool 1 r_multiple then entry_price else original_stop in
  (* Trailing stop after +1.5R *)
  let new_stop :=
    if Qle_bool ConfigRest.PULLBACK_TRAIL_R r_multiple then
      let trailing := current_price - current_atr * atr_stop_mult in
      py_max new_stop trailing
    else new_stop in
  let should_exit := Qle_bool current_price new_stop in
  let reason := if should_exit then "Stop hit" else "Holding" in
  (should_exit, new_stop, reason).

Definition PullbackStrategy : Strategy :=
  {| name := "Pullback";
     check_exit := Some (pullback_check_exit ConfigRest.PULLBACK_ATR_STOP_MULT) |}.

(** A float that may be [NaN]: arithmetic on [NaN] gives [NaN], and every
    comparison with [NaN] is false. *)
Definition nanfloat := option Q.

Definition nan_sub (a b : nanfloat) : nanfloat :=
  match a, b with Some x, Some y => Some (x - y) | _, _ => None end.

Definition nan_add (a b : nanfloat) : nanfloat :=
  match a, b with Some x, Some y => Some (x + y) | _, _ => None end.

Definition nan_mul (a b : nanfloat) : nanfloat :=
  match a, b with Some x, Some y => Some (x * y) | _, _ => None end.

(** [a < b] and [a <= b] *)
Definition nan_lt (a b : nanfloat) : bool :=
  match a, b with Some x, Some y => Qlt_bool x y | _, _ => false end.

Definition nan_le (a b : nanfloat) : bool :=
  match a, b with Some x, Some y => Qle_bool x y | _, _ => false end.

(** [max(a, b)]: [b] when [b > a], otherwise [a]. *)
Definition nan_max (a b : nanfloat) : nanfloat :=
  if nan_lt a b then b else a.

(** The body of the loop of [MomentumStrategy.generate_signals] that prices
    a signal row: from the close of the row, the highest high of the
    [lookback] rows before it and the row's ATR to the triple written into
    [entry], [stop] and [target]. *)
Definition momentum_levels (atr_stop_mult target_r : Q)
    (close : Q) (prev_high atr_14 : nanfloat)
    : nanfloat * nanfloat * nanfloat :=
  let entry := Some close in
  let atr_stop := nan_sub entry (nan_mul atr_14 (Some atr_stop_mult)) in
  let stop := nan_max prev_high atr_stop in
  (* Ensure stop is below entry *)
  let stop :=
    if nan_le entry stop then nan_mul entry (Some (97 # 100)) else stop in
  (* Target based on R-multiple *)
  let risk := nan_sub entry stop in
  let target := nan_add entry (nan_mul risk (Some target_r)) in
  (entry, stop, target).

End StrategiesRest.

(** ** src/backtest.py: the trade statistics of [_calculate_metrics] *)

Module Metrics.
Import Backtest.

(** [trades[trades['net_pnl'] > 0]] and [trades[trades['net_pnl'] < 0]] *)
Definition winners (trades : list Ledger.Trade) : list Ledger.Trade :=
  filter (fun t => Qlt_bool 0 (Ledger.net_pnl t)) trades.

Definition losers (trades : list Ledger.Trade) : list Ledger.Trade :=
  filter (fun t => Qlt_bool (Ledger.net_pnl t) 0) trades.

(** [frame['net_pnl'].sum()] *)
Definition sum_net_pnl (trades : list Ledger.Trade) : Q :=
  fold_left (fun acc t => acc + Ledger.net_pnl t) trades 0.

Definition total_trades (trades : list Ledger.Trade) : Z :=
  Z.of_nat (List.length trades).

Definition winning_trades (trades : list Ledger.Trade) : Z :=
  Z.of_nat (List.length (winners trades)).

Definition losing_trades (trades : list Ledger.Trade) : Z :=
  Z.of_nat (List.length (losers trades)).

Definition win_rate (trades : list Ledger.Trade) : Q :=
  if (0 <? total_trades trades)%Z
  then inject_Z (winning_trades trades) / inject_Z (total_trades trades)
  else 0.

(** [equity_curve.iloc[-1]]; [None] stands for the [IndexError] of an empty
    series. *)
Definition final_equity (equity_curve : Series) : option Q :=
  match rev equity_curve with
  | [] => None
  | (_, x) :: _ => Some x
  end.

Definition total_return (self : Backtester) (equity_curve : Series)
    : option Q :=
  match final_equity equity_curve with
  | Some x => Some (x - initial_capital self)
  | None => None
  end.

Definition gross_profit (trades : list Ledger.Trade) : Q :=
  sum_net_pnl (winners trades).

Definition gross_loss (trades : list Ledger.Trade) : Q :=
  Qabs (sum_net_pnl (losers trades)).

(** [gross_profit / gross_loss if gross_loss > 0 else np.inf] *)
Definition profit_factor (trades : list Ledger.Trade) : npfloat :=
  if Qlt_bool 0 (gross_loss trades)
  then np_div (gross_profit trades) (gross_loss trades)
  else PosInf.

End Metrics.

(** ** src/journal.py: reading the journal back *)

Module Journal.

(** A record of the trades file, as far as the statistics read it:
    [t.get('type')], [t.get('net_pnl', 0)] and [t.get('r_multiple', 0)],
    the two numbers after [float(...)]. *)
Record record := {
  rec_type : option string;
  rec_net_pnl : option Q;
  rec_r_multiple : option Q
}.

(** [read_trades(limit)]: [file] is [None] when the trades file does not
    exist, otherwise its records in file order. *)
Definition read_trades (file : option (list record)) (limit : option Z)
    : list record :=
  match file with
  | None => []
  | Some records =>
      match limit with
      | None => records
      | Some n =>
          if (n =? 0)%Z then records        (* [if limit:] is false for 0 *)
          else py_slice_from records (- n)  (* [records[-limit:]] *)
      end
  end.

(** The dict [get_statistics] returns; the keys ['winners'], ['losers'] and
    ['total_pnl'] are absent from the dict of an empty journal. *)
Record statistics := {
  total_trades : Z;
  winners : option Z;
  losers : option Z;
  win_rate : Q;
  avg_r_multiple : Q;
  total_pnl : option Q;
  avg_pnl : Q
}.

Definition no_statistics : statistics :=
  {| total_trades := 0; winners := None; losers := None; win_rate := 0;
     avg_r_multiple := 0; total_pnl := None; avg_pnl := 0 |}.

Definition is_exit (t : record) : bool :=
  match rec_type t with
  | Some ty => String.eqb ty "exit"
  | None => false
  end.

Definition net_pnl_of (t : record) : Q :=
  match rec_net_pnl t with Some x => x | None => 0 end.

Definition r_multiple_of (t : record) : Q :=
  match rec_r_multiple t with Some x => x | None => 0 end.

Definition get_statistics (file : option (list record)) : statistics :=
  let trades := read_trades file None in
  match trades with
  | [] => no_statistics
  | _ :: _ =>
      let exits := filter is_exit trades in
      match exits with
      | [] => no_statistics
      | _ :: _ =>
          let total_trades := Z.of_nat (List.length exits) in
          let winners :=
            Z.of_nat (List.length
                        (filter (fun t => Qlt_bool 0 (net_pnl_of t)) exits)) in
          let total_pnl := fold_left (fun acc t => acc + net_pnl_of t) exits 0 in
          let total_r := fold_left (fun acc t => acc + r_multiple_of t) exits 0 in
          {| total_trades := total_trades;
             winners := Some winners;
             losers := Some (total_trades - winners)%Z;
             win_rate :=
               if (0 <? total_trades)%Z
               then inject_Z winners / inject_Z total_trades else 0;
             avg_r_multiple :=
               if (0 <? total_trades)%Z
               then total_r / inject_Z total_trades else 0;
             total_pnl := Some total_pnl;
             avg_pnl :=
               if (0 <? total_trades)%Z
               then total_pnl / inject_Z total_trades else 0 |}
      end
  end.

(** The ['r_ratio'] that [log_signal] writes, and the ['target_r'] that
    [log_entry] writes. *)
Definition r_ratio (entry stop target : Q) : Q :=
  if Qlt_bool stop entry then (target - entry) / (entry - stop) else 0.

End Journal.

(** ** src/data.py: the liquidity filter *)

Module Data.
Import StrategiesRest.

(** A row of an OHLCV frame, as far as the filter reads it. *)
Record row := {
  row_close : Q;
  row_volume : Q
}.

(** [s.tail(n)]: nothing for 0, otherwise [s.iloc[-n:]]. *)
Definition tail {A} (l : list A) (n : Z) : list A :=
  if (n =? 0)%Z then [] else py_slice_from l (- n).

(** [s.mean()]: [NaN] for an empty series. *)
Definition mean (l : list Q) : nanfloat :=
  match l with
  | [] => None
  | _ :: _ => Some (fold_left Qplus l 0 / inject_Z (Z.of_nat (List.length l)))
  end.

Definition calculate_avg_dollar_volume (df : list row) (periods : Z)
    : nanfloat :=
  match df with
  | [] => Some 0
  | _ :: _ =>
      if (Z.of_nat (List.length df) <? periods)%Z then Some 0
      else
        let dollar_volume := map (fun r => row_close r * row_volume r) df in
        mean (tail dollar_volume periods)
  end.

(** [filter_by_liquidity]: [data] is the dict as the list of its items, in
    insertion order. *)
Definition qualifies (min_price min_dollar_volume : Q) (periods : Z)
    (df : list row) : bool :=
  match rev df with
  | [] => false                                   (* [df.empty] *)
  | latest :: _ =>
      let latest_price := row_close latest in
      if Qlt_bool latest_price min_price then false
      else
        let avg_dv := calculate_avg_dollar_volume df periods in
        if nan_lt avg_dv (Some min_dollar_volume) then false
        else true
  end.

Definition filter_by_liquidity (data : list (string * list row))
    (min_price min_dollar_volume : Q) (periods : Z)
    : list (string * list row) :=
  filter (fun item => qualifies min_price min_dollar_volume periods (snd item))
         data.

End Data.

(** ** src/broker.py: [place_order] *)

Module Broker.

Inductive OrderSide := BUY | SELL.
Inductive TimeInForce := DAY | GTC.

(** A request handed to [client.submit_order]. *)
Record order_request := {
  req_symbol : string;
  req_qty : Z;
  req_side : OrderSide;
  req_time_in_force : TimeInForce;
  req_limit_price : option Q
}.

(** A position dict of [get_positions]. *)
Record position := {
  pos_symbol : string;
  pos_qty : Z
}.

(** [place_order]: [positions] is what [self.get_positions()] returns (the
    empty list when the API call fails), [submit] is
    [self.client.submit_order], answering [None] where it raises
    [APIError].  The result is the order dict or [None], together with the
    requests that were handed to [submit]. *)
Definition place_order {reply : Type}
    (positions : list position) (submit : order_request -> option reply)
    (symbol side : string) (qty : Z) (order_type : string)
    (limit_price : option Q) (time_in_force : string)
    : option reply * list order_request :=
  (* Validate *)
  if (qty <=? 0)%Z then (None, [])
  else
    let blocked :=
      if negb (String.eqb ConfigRest.TRADING_MODE "long_only")
         || negb (String.eqb side "buy") then
        if negb ConfigRest.SHORTING_ALLOWED && String.eqb side "sell" then
          (* Check if this is closing a position *)
          let has_position :=
            existsb (fun p => String.eqb (pos_symbol p) symbol
                              && (0 <? pos_qty p)%Z) positions in
          negb has_position
        else false
      else false in
    if blocked then (None, [])
    else
      (* Convert types *)
      let order_side := if String.eqb side "buy" then BUY else SELL in
      let tif := if String.eqb time_in_force "day" then DAY else GTC in
      if String.eqb order_type "market" then
        let order_request :=
          {| req_symbol := symbol; req_qty := qty; req_side := order_side;
             req_time_in_force := tif; req_limit_price := None |} in
        (submit order_request, [order_request])
      else if String.eqb order_type "limit" then
        match limit_price with
        | None => (None, [])
        | Some price =>
            let order_request :=
              {| req_symbol := symbol; req_qty := qty; req_side := order_side;
                 req_time_in_force := tif; req_limit_price := Some price |} in
            (submit order_request, [order_request])
        end
      else (None, []).

End Broker.

(** * Part I, continued: position sizing on binary64 numbers *)

#[local] Set Warnings "-inexact-float".

Module Double.

(** ** Python floats *)

(** The exceptions that float arithmetic and [int()] raise. *)
Inductive error := ZeroDivisionError | ValueError | OverflowError.

Inductive result (A : Type) :=
| Return (a : A)
| Raise (e : error).
Arguments Return {A} a.
Arguments Raise {A} e.

Definition bind {A B} (c : result A) (k : A -> result B) : result B :=
  match c with
  | Return a => k a
  | Raise e => Raise e
  end.

Notation "x <-- c ;; k" := (bind c (fun x => k))
  (at level 61, c at next level, right associativity).

(** [a / b]: raises when the divisor is zero, of either sign. *)
Definition div (a b : float) : result float :=
  if (b =? 0)%float then Raise ZeroDivisionError else Return (a / b)%float.

(** [int(x)]: truncation toward zero; raises on [nan] and on an infinity. *)
Definition int (x : float) : result Z :=
  match Prim2SF x with
  | S754_nan => Raise ValueError
  | S754_infinity _ => Raise OverflowError
  | S754_zero _ => Return 0%Z
  | S754_finite s m e =>
      let a := Z.shiftl (Zpos m) e in
      Return (if s then (- a)%Z else a)
  end.

(** [int(a / b)] *)
Definition int_div (a b : float) : result Z :=
  q <-- div a b ;; int q.

(** The float an [int] operand becomes in [n * x]: the nearest double, ties
    to even; raises when the integer is too large for a double. *)
Definition of_int (n : Z) : result float :=
  let x := SF2Prim (binary_normalize prec emax n 0 false) in
  if is_infinity x then Raise OverflowError else Return x.

(** ** src/config.py *)

Module Config.
Definition MAX_POSITIONS : Z := 2.
Definition MAX_POSITION_SIZE_PCT : float := 0.30.
Definition MAX_RISK_PER_TRADE_PCT : float := 0.01.
End Config.

(** ** src/position_sizing.py *)

Module PositionSizing.

Record PositionSizer := {
  equity : float;
  max_position_pct : float;
  max_risk_pct : float
}.

(** [PositionSizer(equity)] with the defaults of the constructor. *)
Definition new (equity : float) : PositionSizer :=
  {| equity := equity;
     max_position_pct := Config.MAX_POSITION_SIZE_PCT;
     max_risk_pct := Config.MAX_RISK_PER_TRADE_PCT |}.

(** The dict [calculate_shares] returns. *)
Record SizingResult := {
  shares : Z;
  position_value : float;
  position_pct : float;
  risk_dollars : float;
  risk_pct : float;
  risk_per_share : float;
  valid : bool;
  reason : string
}.

Definition initial_result : SizingResult :=
  {| shares := 0; position_value := 0; position_pct := 0;
     risk_dollars := 0; risk_pct := 0; risk_per_share := 0;
     valid := false; reason := "" |}.

Definition with_reason (r : SizingResult) (msg : string) : SizingResult :=
  {| shares := shares r; position_value := position_value r;
     position_pct := position_pct r; risk_dollars := risk_dollars r;
     risk_pct := risk_pct r; risk_per_share := risk_per_share r;
     valid := valid r; reason := msg |}.

Definition with_risk_per_share (r : SizingResult) (x : float) : SizingResult :=
  {| shares := shares r; position_value := position_value r;
     position_pct := position_pct r; risk_dollars := risk_dollars r;
     risk_pct := risk_pct r; risk_per_share := x;
     valid := valid r; reason := reason r |}.

Definition calculate_shares (self : PositionSizer)
    (entry_price stop_price : float) (risk_pct_arg : option float)
    : result SizingResult :=
  let risk_pct :=
    match risk_pct_arg with None => max_risk_pct self | Some r => r end in
  let result := initial_result in
  (* Validation *)
  if (entry_price <=? 0)%float then
    Return (with_reason result "Entry price must be positive")
  else if (stop_price <=? 0)%float then
    Return (with_reason result "Stop price must be positive")
  else if (entry_price <=? stop_price)%float then
    Return (with_reason result
              "Stop price must be below entry price (long only)")
  else if (equity self <=? 0)%float then
    Return (with_reason result "Equity must be positive")
  else
    let risk_per_share := (entry_price - stop_price)%float in
    let result := with_risk_per_share result risk_per_share in
    let max_risk_dollars := (equity self * risk_pct)%float in
    shares_by_risk <-- int_div max_risk_dollars risk_per_share ;;
    let max_position_dollars := (equity self * max_position_pct self)%float in
    shares_by_position_size <-- int_div max_position_dollars entry_price ;;
    let shares := Z.min shares_by_risk shares_by_position_size in
    if (shares <? 1)%Z then
      Return (with_reason result
        "Position size rounds to 0 shares (insufficient equity or risk too small)")
    else
      n <-- of_int shares ;;
      let position_value := (n * entry_price)%float in
      position_pct <-- div position_value (equity self) ;;
      let risk_dollars := (n * risk_per_share)%float in
      actual_risk_pct <-- div risk_dollars (equity self) ;;
      (* Final validation *)
      if (max_position_pct self <? position_pct)%float then
        Return (with_reason result "Position size exceeds max")
      else if (max_risk_pct self <? actual_risk_pct)%float then
        Return (with_reason result "Risk exceeds max")
      else
        Return {| shares := shares; position_value := position_value;
                  position_pct := position_pct; risk_dollars := risk_dollars;
                  risk_pct := actual_risk_pct;
                  risk_per_share := risk_per_share;
                  valid := true; reason := "OK" |}.

End PositionSizing.

(** ** src/risk.py *)

Module Risk.

Record RiskManager := {
  equity : float;
  max_positions : Z;
  max_position_pct : float;
  max_risk_pct : float
}.

Definition new (equity : float) : RiskManager :=
  {| equity := equity;
     max_positions := Config.MAX_POSITIONS;
     max_position_pct := Config.MAX_POSITION_SIZE_PCT;
     max_risk_pct := Config.MAX_RISK_PER_TRADE_PCT |}.

Definition calculate_max_shares (self : RiskManager)
    (entry_price stop_price : float) : result Z :=
  if (entry_price <=? stop_price)%float || (entry_price <=? 0)%float
     || (stop_price <=? 0)%float
  then Return 0%Z
  else
    (* Risk-based sizing *)
    let risk_per_share := (entry_price - stop_price)%float in
    let max_risk_dollars := (equity self * max_risk_pct self)%float in
    shares_by_risk <-- int_div max_risk_dollars risk_per_share ;;
    (* Position size limit *)
    let max_position_dollars := (equity self * max_position_pct self)%float in
    shares_by_position <-- int_div max_position_dollars entry_price ;;
    (* Return the smaller of the two *)
    Return (Z.min shares_by_risk shares_by_position).

End Risk.

(** ** The sizing rule as the specification words it *)

Module Stated.
Import PositionSizing.

(** "Returns [shares = min(floor(..), floor(..))], invalid when that minimum
    is below 1", with the two quotients as the code computes them. *)
Definition sized_to_min_of_caps : Prop :=
  forall (self : PositionSizer) (entry_price stop_price : float) (a b : Z),
    (0 <? stop_price)%float = true ->
    (stop_price <? entry_price)%float = true ->
    (0 <? equity self)%float = true ->
    int_div (equity self * max_risk_pct self) (entry_price - stop_price)
    = Return a ->
    int_div (equity self * max_position_pct self) entry_price = Return b ->
    exists r,
      calculate_shares self entry_price stop_price None = Return r /\
      ((Z.min a b < 1)%Z -> valid r = false) /\
      ((1 <= Z.min a b)%Z -> shares r = Z.min a b).

End Stated.

End Double.

(** * Part II: properties *)

(** ** Comparisons, truncation and [max] *)

Lemma Qlt_bool_iff a b : Qlt_bool a b = true <-> a < b.
Proof.
  unfold Qlt_bool. rewrite negb_true_iff.
  split; intro H.
  - apply Qnot_le_lt. intro Hle. apply Qle_bool_iff in Hle. congruence.
  - destruct (Qle_bool b a) eqn:E; [|reflexivity].
    apply Qle_bool_iff in E. exfalso. apply (Qlt_not_le _ _ H E).
Qed.

Lemma Qlt_bool_false a b : Qlt_bool a b = false <-> b <= a.
Proof.
  unfold Qlt_bool. rewrite negb_false_iff. apply Qle_bool_iff.
Qed.

Lemma Qle_bool_false a b : Qle_bool a b = false <-> b < a.
Proof.
  split; intro H.
  - apply Qnot_le_lt. intro Hle. apply Qle_bool_iff in Hle. congruence.
  - destruct (Qle_bool a b) eqn:E; [|reflexivity].
    apply Qle_bool_iff in E. exfalso. apply (Qlt_not_le _ _ H E).
Qed.

Lemma py_max_ge_l a b : a <= py_max a b.
Proof.
  unfold py_max. destruct (Qlt_bool a b) eqn:E.
  - apply Qlt_bool_iff in E. apply Qlt_le_weak, E.
  - apply Qle_refl.
Qed.

Lemma py_max_ge_r a b : b <= py_max a b.
Proof.
  unfold py_max. destruct (Qlt_bool a b) eqn:E.
  - apply Qle_refl.
  - apply Qlt_bool_false in E. exact E.
Qed.

Lemma py_int_nonneg x : 0 <= x -> py_int x = Qfloor x.
Proof.
  intro H. unfold py_int. destruct x as [n d]. simpl.
  apply Z.quot_div_nonneg; [|lia].
  unfold Qle in H. simpl in H. lia.
Qed.

Lemma py_int_neg x : x < 0 -> (py_int x <= 0)%Z.
Proof.
  intro H. unfold py_int. destruct x as [n d]. simpl.
  unfold Qlt in H. simpl in H.
  replace n with (- (- n))%Z by lia.
  rewrite Z.quot_opp_l by lia.
  assert (0 <= Z.quot (- n) (Zpos d))%Z by (apply Z.quot_pos; lia).
  lia.
Qed.

Lemma Qfloor_lt_1 x : x < 1 -> (Qfloor x < 1)%Z.
Proof.
  intro H.
  destruct (Z_lt_le_dec (Qfloor x) 1) as [L|L]; [exact L|exfalso].
  assert (inject_Z 1 <= inject_Z (Qfloor x)) as H1
    by (rewrite <- Zle_Qle; exact L).
  pose proof (Qfloor_le x) as H2.
  apply (Qlt_not_le _ _ H). eapply Qle_trans; [exact H1|exact H2].
Qed.

(** [int] and [floor] fall on the same side of 1, and agree from 1 on. *)
Lemma py_int_lt_1_iff x : (py_int x < 1)%Z <-> (Qfloor x < 1)%Z.
Proof.
  destruct (Qlt_le_dec x 0) as [N|P].
  - pose proof (py_int_neg x N).
    assert (Qfloor x < 1)%Z by (apply Qfloor_lt_1; lra).
    lia.
  - rewrite (py_int_nonneg x P). reflexivity.
Qed.

Lemma py_int_ge_1 x : (1 <= py_int x)%Z -> py_int x = Qfloor x.
Proof.
  intro H. destruct (Qlt_le_dec x 0) as [N|P].
  - pose proof (py_int_neg x N). lia.
  - apply py_int_nonneg, P.
Qed.

Lemma Qfloor_nonneg x : 0 <= x -> (0 <= Qfloor x)%Z.
Proof.
  intro H. change 0%Z with (Qfloor 0). apply Qfloor_resp_le, H.
Qed.

Lemma Qdiv_nonneg a b : 0 <= a -> 0 < b -> 0 <= a / b.
Proof.
  intros Ha Hb. apply Qle_shift_div_l; [exact Hb|]. lra.
Qed.

(** ** Position sizing *)

Section Sizing.
Import Double Double.PositionSizing.

(** A float above zero is not zero. *)
Lemma leb_false_nonzero (x : float) :
  (x <=? 0)%float = false -> (x =? 0)%float = false.
Proof.
  rewrite leb_spec, eqb_spec. unfold SFleb, SFeqb.
  destruct (SFcompare (Prim2SF x) (Prim2SF 0)) as [[]|]; congruence.
Qed.

(** [a < b] rules out [b <= a]. *)
Lemma ltb_not_leb (a b : float) :
  (a <? b)%float = true -> (b <=? a)%float = false.
Proof.
  rewrite ltb_spec, leb_spec. unfold SFltb, SFleb.
  destruct (Prim2SF a) as [[]|[]| |[] m1 e1],
           (Prim2SF b) as [[]|[]| |[] m2 e2];
    cbn; try congruence.
  - rewrite (Z.compare_antisym e1 e2).
    destruct (e1 ?= e2)%Z eqn:E; cbn; try congruence.
    rewrite !Pos.compare_cont_spec. cbn.
    rewrite (Pos.compare_antisym m1 m2).
    destruct (m1 ?= m2)%positive; cbn; congruence.
  - rewrite (Z.compare_antisym e1 e2).
    destruct (e1 ?= e2)%Z eqn:E; cbn; try congruence.
    rewrite !Pos.compare_cont_spec. cbn.
    rewrite (Pos.compare_antisym m1 m2).
    destruct (m1 ?= m2)%positive; cbn; congruence.
Qed.

(** What lies above a float above zero is above zero. *)
Lemma above_positive (s e : float) :
  (0 <? s)%float = true -> (s <? e)%float = true -> (e <=? 0)%float = false.
Proof.
  rewrite !ltb_spec, leb_spec. unfold SFltb, SFleb.
  change (Prim2SF 0) with (S754_zero false).
  destruct (Prim2SF s) as [[]|[]| |[] m1 e1],
           (Prim2SF e) as [[]|[]| |[] m2 e2];
    cbn; congruence.
Qed.

(** C6 as stated fails: on an account of 25000 with the default caps, an
    entry at 681.8181818181819 against a stop at 660.9848484848485 gives
    the two truncated quotients 11 and 11, yet the result is invalid with 0
    shares: the quotient 7500 / 681.8181818181819 rounds up to 11.0, and the
    position of 11 shares recomputed in the final validation is
    0.30000000000000004 of equity, above the cap of 0.30. *)
Lemma sized_to_min_of_caps_fails : ~ Double.Stated.sized_to_min_of_caps.
Proof.
  intro H.
  destruct (H (new 25000) 681.8181818181819%float 660.9848484848485%float
              11%Z 11%Z)
    as (r & Hr & _ & Hshares);
    try (vm_compute; reflexivity).
  assert (shares r = 11%Z) as E by (apply Hshares; vm_compute; discriminate).
  vm_compute in Hr. injection Hr as <-. discriminate E.
Qed.

(** C6, amended: for a long set-up on positive equity whose two quotients
    [equity * max_risk_pct / (entry_price - stop_price)] and
    [equity * max_position_pct / entry_price] are numbers, so that [int()]
    truncates them to [a] and [b], [calculate_shares] returns a result.
    With [m = min(a, b)] and [n] the double that [m] becomes in a product,
    the result is valid exactly when [m] is at least 1 and neither the
    position [n * entry_price / equity] nor the risk
    [n * (entry_price - stop_price) / equity], recomputed in double
    arithmetic by the final validation, exceeds its cap; a valid result
    carries [m] shares and an invalid one carries 0.  Scenario 1 gives 50
    shares, valid; scenario 2 gives 7 shares. *)
Theorem sizer_returns_checked_minimum :
  (forall (self : PositionSizer) (entry_price stop_price : float)
          (a b : Z) (n : float),
     (0 <? stop_price)%float = true ->
     (stop_price <? entry_price)%float = true ->
     (0 <? equity self)%float = true ->
     int_div (equity self * max_risk_pct self) (entry_price - stop_price)
     = Return a ->
     int_div (equity self * max_position_pct self) entry_price = Return b ->
     ((1 <= Z.min a b)%Z -> of_int (Z.min a b) = Return n) ->
     exists r,
       calculate_shares self entry_price stop_price None = Return r /\
       (valid r = true <->
        (1 <= Z.min a b)%Z /\
        (max_position_pct self <? n * entry_price / equity self)%float
        = false /\
        (max_risk_pct self
         <? n * (entry_price - stop_price) / equity self)%float = false) /\
       (valid r = true -> shares r = Z.min a b) /\
       (valid r = false -> shares r = 0%Z))
  /\
  (exists r1 r2,
     calculate_shares (new 25000) 150 145 None = Return r1 /\
     shares r1 = 50%Z /\ valid r1 = true /\
     calculate_shares (new 25000) 1000 995 None = Return r2 /\
     shares r2 = 7%Z).
Proof.
  split.
  2:{ eexists. eexists. vm_compute. repeat split. }
  intros self entry_price stop_price a b n Hs Hes Heq Ha Hb Hn.
  pose proof (above_positive _ _ Hs Hes) as G1.
  pose proof (ltb_not_leb _ _ Hs) as G2.
  pose proof (ltb_not_leb _ _ Hes) as G3.
  pose proof (ltb_not_leb _ _ Heq) as G4.
  pose proof (leb_false_nonzero _ G4) as Hnz.
  unfold calculate_shares. rewrite G1, G2, G3, G4.
  cbv zeta. rewrite Ha. cbn [bind]. rewrite Hb. cbn [bind].
  destruct (Z.min a b <? 1)%Z eqn:Hlt.
  - apply Z.ltb_lt in Hlt. eexists. split; [reflexivity|]. cbn.
    repeat split; try discriminate; try reflexivity.
    + intros (H1 & _). lia.
  - apply Z.ltb_ge in Hlt. rewrite (Hn Hlt). cbn [bind].
    unfold div. rewrite Hnz. cbn [bind].
    destruct (max_position_pct self <? _)%float eqn:Ep.
    + eexists. split; [reflexivity|]. cbn.
      repeat split; try discriminate; try reflexivity.
      intros (_ & H2 & _). discriminate H2.
    + destruct (max_risk_pct self <? _)%float eqn:Er.
      * eexists. split; [reflexivity|]. cbn.
        repeat split; try discriminate; try reflexivity.
        intros (_ & _ & H3). discriminate H3.
      * eexists. split; [reflexivity|]. cbn.
        repeat split; try discriminate; try reflexivity; assumption.
Qed.

Lemma sizer_returns_checked_minimum_witness :
  exists r,
    calculate_shares (new 25000) 100 95 None = Return r /\
    valid r = true /\ shares r = 50%Z.
Proof.
  destruct (proj1 sizer_returns_checked_minimum (new 25000) 100%float 95%float
              50%Z 75%Z 50%float)
    as (r & Hr & Hv & Hsh & _);
    try (vm_compute; reflexivity).
  exists r. split; [exact Hr|].
  assert (valid r = true) as V.
  { apply Hv. vm_compute. repeat split. discriminate. }
  split; [exact V|]. rewrite (Hsh V). reflexivity.
Defined.

End Sizing.

(** ** Pre-trade risk checks *)

Section RiskChecks.
Import Risk.

Lemma Qeq_bool_false_of_neq (x y : Q) : ~ x == y -> Qeq_bool x y = false.
Proof.
  intro H. destruct (Qeq_bool x y) eqn:E; [|reflexivity].
  apply Qeq_bool_iff in E. contradiction.
Qed.

(** C9 as stated fails for a manager built on an equity of zero: checks 2
    and 3 divide by the equity, so the call raises after check 1 and
    returns no verdict. *)
Lemma risk_checks_accumulate_fails : ~ Stated.risk_checks_accumulate.
Proof.
  intro H.
  destruct (H (new 0) "AAPL" 150 7500 250 [] None)
    as (approved & reasons & Hrun & _).
  vm_compute in Hrun. discriminate Hrun.
Qed.

(** C9, amended: for a manager whose equity is not zero, [check_pre_trade]
    runs the whole battery whatever fails.  The call returns; it approves
    exactly when no check of the battery fails; when it rejects, the
    reasons are the messages of all failed checks, one each, in battery
    order; when it approves, the reasons are the single affirmative
    message. *)
Theorem check_pre_trade_accumulates
    (self : RiskManager) (sym : string)
    (entry_price position_value risk_dollars : Q)
    (current_positions : list Position) (liquidity_check : option dict) :
  ~ equity self == 0 ->
  exists approved reasons,
    check_pre_trade self sym entry_price position_value risk_dollars
                    current_positions liquidity_check
    = Returned (approved, reasons) /\
    (approved = true <->
     filter fails (battery self sym entry_price position_value risk_dollars
                           current_positions liquidity_check) = []) /\
    (approved = false ->
     reasons = failures (battery self sym entry_price position_value
                                 risk_dollars current_positions liquidity_check)
     /\ List.length reasons
        = List.length (filter fails
            (battery self sym entry_price position_value risk_dollars
                     current_positions liquidity_check))) /\
    (approved = true -> reasons = [msg_passed]).
Proof.
  intro Hne.
  unfold check_pre_trade, py_div, battery, failures.
  rewrite (Qeq_bool_false_of_neq _ _ Hne). cbn [bind].
  unfold Config.LEVERAGE_ALLOWED. cbn [negb andb].
  set (c1 := (max_positions self <=? Z.of_nat (List.length current_positions))%Z).
  set (hs := has_symbol sym current_positions).
  set (c2 := Qlt_bool (max_position_pct self) (position_value / equity self)).
  set (c3 := Qlt_bool (max_risk_pct self) (risk_dollars / equity self)).
  set (c4 := Qlt_bool entry_price Config.MIN_STOCK_PRICE).
  set (c7 := Qlt_bool (equity self * (101 # 100))
                      (sum_market_value current_positions + position_value)).
  destruct liquidity_check as [[|kv d]|]; cbn [truthy];
    try (set (c5 := Qlt_bool (dict_get (kv :: d) "avg_dollar_volume" 0)
                             Config.MIN_AVG_DOLLAR_VOLUME); destruct c5);
    destruct c1, hs, c2, c3, c4, c7; cbn;
    eexists; eexists; (split; [reflexivity|]);
    repeat split; intros; try discriminate; try reflexivity.
Qed.

Lemma check_pre_trade_accumulates_witness :
  exists approved reasons,
    check_pre_trade (new 25000) "PENNY" (3 # 2) 10000 500
      [ {| symbol := "MSFT"; market_value := Some 8000 |};
        {| symbol := "GOOGL"; market_value := Some 8000 |} ]
      (Some [("avg_dollar_volume", 500000)])
    = Returned (approved, reasons) /\
    approved = false /\ List.length reasons = 6%nat.
Proof.
  destruct (check_pre_trade_accumulates (new 25000) "PENNY" (3 # 2) 10000 500
      [ {| symbol := "MSFT"; market_value := Some 8000 |};
        {| symbol := "GOOGL"; market_value := Some 8000 |} ]
      (Some [("avg_dollar_volume", 500000)]))
    as (approved & reasons & Hrun & _ & Hrej & _).
  - vm_compute. discriminate.
  - exists approved, reasons. split; [exact Hrun|].
    vm_compute in Hrun. injection Hrun as Ha Hr. subst approved.
    split; [reflexivity|]. subst reasons. reflexivity.
Defined.

End RiskChecks.

(** ** The exit loop *)

Section ExitLoop.
Import Strategies Backtest.

Variable strategy : Strategy.
Variables entry_price stop_price target_price : Q.

Local Abbreviation loop := (find_exit_loop strategy entry_price stop_price target_price).
Local Abbreviation body := (exit_step strategy entry_price stop_price target_price).

(** Every pass records the bar it is on and the stop it started with. *)
Lemma exit_step_event current_stop bar :
  ev_idx (snd (body current_stop bar)) = ts bar /\
  ev_current_stop (snd (body current_stop bar)) = current_stop.
Proof.
  unfold exit_step.
  destruct (Qle_bool target_price (high bar)); [split; reflexivity|].
  destruct (Qle_bool (low bar) current_stop); [split; reflexivity|].
  destruct (check_exit strategy) as [policy|]; [|split; reflexivity].
  destruct (policy _ _ _ _) as [[should_exit new_stop] reason].
  destruct should_exit; split; reflexivity.
Qed.

(** A pass that goes on never lowers the stop. *)
Lemma exit_step_continue current_stop bar next :
  fst (body current_stop bar) = Continue next -> current_stop <= next.
Proof.
  unfold exit_step.
  destruct (Qle_bool target_price (high bar)); [discriminate|].
  destruct (Qle_bool (low bar) current_stop); [discriminate|].
  destruct (check_exit strategy) as [policy|].
  - destruct (policy _ _ _ _) as [[should_exit new_stop] reason].
    destruct should_exit; [discriminate|].
    cbn. intro H. injection H as <-. apply py_max_ge_l.
  - cbn. intro H. injection H as <-. apply Qle_refl.
Qed.

(** A pass that returns, returns the label of its bar. *)
Lemma exit_step_exit current_stop bar idx price reason :
  fst (body current_stop bar) = Exit (idx, price, reason) -> idx = ts bar.
Proof.
  unfold exit_step.
  destruct (Qle_bool target_price (high bar)); [cbn; congruence|].
  destruct (Qle_bool (low bar) current_stop); [cbn; congruence|].
  destruct (check_exit strategy) as [policy|]; [|discriminate].
  destruct (policy _ _ _ _) as [[should_exit new_stop] r].
  destruct should_exit; [cbn; congruence|discriminate].
Qed.

Lemma find_exit_loop_cons current_stop bar rest :
  loop current_stop (bar :: rest) =
  match fst (body current_stop bar) with
  | Exit r => (Exit r, [snd (body current_stop bar)])
  | Continue next =>
      (fst (loop next rest), snd (body current_stop bar) :: snd (loop next rest))
  end.
Proof.
  cbn [find_exit_loop].
  destruct (body current_stop bar) as [s ev]. cbn [fst snd].
  destruct s as [r|next]; [reflexivity|].
  destruct (loop next rest); reflexivity.
Qed.

(** Running the loop over [pre ++ rest], when [pre] holds no exit, is
    running it over [rest] from the stop [pre] leaves behind. *)
Lemma find_exit_loop_app pre rest : forall current_stop cs,
  fst (loop current_stop pre) = Continue cs ->
  loop current_stop (pre ++ rest) =
  (fst (loop cs rest), (snd (loop current_stop pre) ++ snd (loop cs rest))%list).
Proof.
  induction pre as [|bar pre IH]; intros current_stop cs H.
  - cbn in H. injection H as <-. cbn. destruct (loop _ rest); reflexivity.
  - rewrite <- app_comm_cons.
    rewrite (find_exit_loop_cons current_stop bar (pre ++ rest)).
    rewrite (find_exit_loop_cons current_stop bar pre) in *.
    destruct (fst (body current_stop bar)) as [r|next]; [discriminate|].
    cbn [fst snd] in *. rewrite (IH next cs H). reflexivity.
Qed.

(** The stops the loop starts its passes with, from [current_stop] on,
    never go down. *)
Lemma find_exit_loop_stops rows : forall current_stop,
  Forall (fun ev => current_stop <= ev_current_stop ev)
         (snd (loop current_stop rows)) /\
  StronglySorted Qle (map ev_current_stop (snd (loop current_stop rows))).
Proof.
  induction rows as [|bar rest IH]; intro current_stop.
  - cbn. split; constructor.
  - rewrite find_exit_loop_cons.
    destruct (exit_step_event current_stop bar) as [_ Hcs].
    destruct (fst (body current_stop bar)) as [r|next] eqn:E; cbn [snd map].
    + split.
      * constructor; [rewrite Hcs; apply Qle_refl|constructor].
      * constructor; constructor.
    + destruct (IH next) as [Hall Hsorted].
      pose proof (exit_step_continue _ _ _ E) as Hle.
      split.
      * constructor; [rewrite Hcs; apply Qle_refl|].
        eapply Forall_impl; [|exact Hall]. cbn. intros ev Hev.
        eapply Qle_trans; eassumption.
      * constructor; [exact Hsorted|].
        rewrite Hcs. apply Forall_map.
        eapply Forall_impl; [|exact Hall]. cbn. intros ev Hev.
        eapply Qle_trans; eassumption.
Qed.


(** An exit found by the loop is at one of the rows it was given. *)
Lemma find_exit_loop_idx rows : forall current_stop idx price reason,
  fst (loop current_stop rows) = Exit (idx, price, reason) ->
  In idx (map ts rows).
Proof.
  induction rows as [|bar rest IH]; intros current_stop idx price reason H.
  - discriminate.
  - rewrite find_exit_loop_cons in H.
    destruct (fst (body current_stop bar)) as [r|next] eqn:E.
    + cbn in H. injection H as ->. left. symmetry.
      eapply exit_step_exit; eassumption.
    + right. eapply IH. exact H.
Qed.

Lemma find_exit_traced_unfold df entry_idx :
  find_exit_traced df entry_idx entry_price stop_price target_price strategy =
  (match fst (loop stop_price (future_data df entry_idx)) with
   | Exit r => Some r
   | Continue _ => None
   end,
   snd (loop stop_price (future_data df entry_idx))).
Proof.
  unfold find_exit_traced.
  destruct (loop stop_price (future_data df entry_idx)) as [s evs].
  destruct s; reflexivity.
Qed.

Lemma find_exit_unfold df entry_idx :
  _find_exit df entry_idx entry_price stop_price target_price strategy =
  match fst (loop stop_price (future_data df entry_idx)) with
  | Exit r => Some r
  | Continue _ => None
  end.
Proof.
  unfold _find_exit. rewrite find_exit_traced_unfold. reflexivity.
Qed.

End ExitLoop.

Section ExitClaims.
Import Strategies Backtest.

(** C2: on a bar after the entry bar that the trade reaches still open,
    with [cs] the current stop, the exits are tried in the order target,
    stop, policy.  A high at or above the target exits at the target with
    reason 'target' whatever the low is; a stop exit at [cs] happens only
    below the target, when the low is at or below [cs]; the policy is
    consulted only when neither holds, and then either exits at the close
    with its own reason or hands on the stop, raised if it asks so. *)
Theorem find_exit_priority
    (strategy : Strategy) (df : DataFrame) (entry_idx : Z)
    (entry_price stop_price target_price : Q)
    (pre : list Bar) (bar : Bar) (post : list Bar) (cs : Q) :
  future_data df entry_idx = pre ++ bar :: post ->
  fst (find_exit_loop strategy entry_price stop_price target_price
                      stop_price pre) = Continue cs ->
  let result :=
    _find_exit df entry_idx entry_price stop_price target_price strategy in
  let after_bar :=
    fst (find_exit_loop strategy entry_price stop_price target_price
                        stop_price (pre ++ [bar])) in
  (target_price <= high bar ->
   result = Some (ts bar, target_price, "target")) /\
  (high bar < target_price -> low bar <= cs ->
   result = Some (ts bar, cs, "stop")) /\
  (result = Some (ts bar, cs, "stop") -> high bar < target_price) /\
  (high bar < target_price -> cs < low bar ->
   match check_exit strategy with
   | None => after_bar = Continue cs
   | Some policy =>
       let '(should_exit, new_stop, reason) :=
         policy entry_price (close bar)
                (match atr_14 bar with Some a => a | None => 0 end)
                stop_price in
       if should_exit then result = Some (ts bar, close bar, reason)
       else after_bar = Continue (py_max cs new_stop)
   end).
Proof.
  intros Hrows Hopen result after_bar. subst result after_bar.
  rewrite find_exit_unfold, Hrows.
  rewrite (find_exit_loop_app _ _ _ _ pre (bar :: post) _ cs Hopen).
  rewrite (find_exit_loop_app _ _ _ _ pre [bar] _ cs Hopen).
  cbn [fst]. rewrite !find_exit_loop_cons. unfold exit_step.
  assert (target_price <= high bar ->
          Qle_bool target_price (high bar) = true) as Ht
    by (intro; apply Qle_bool_iff; assumption).
  assert (high bar < target_price ->
          Qle_bool target_price (high bar) = false) as Hnt
    by (intro; apply Qle_bool_false; assumption).
  assert (low bar <= cs -> Qle_bool (low bar) cs = true) as Hs
    by (intro; apply Qle_bool_iff; assumption).
  assert (cs < low bar -> Qle_bool (low bar) cs = false) as Hns
    by (intro; apply Qle_bool_false; assumption).
  repeat split.
  - intro H. rewrite (Ht H). reflexivity.
  - intros H1 H2. rewrite (Hnt H1), (Hs H2). reflexivity.
  - destruct (Qle_bool target_price (high bar)) eqn:E.
    + cbn. intro H. discriminate H.
    + intros _. apply Qle_bool_false, E.
  - intros H1 H2. rewrite (Hnt H1), (Hns H2).
    destruct (check_exit strategy) as [policy|]; [|reflexivity].
    destruct (policy _ _ _ _) as [[should_exit new_stop] reason].
    destruct should_exit; reflexivity.
Qed.

Lemma find_exit_priority_witness :
  _find_exit Samples.wide_bar 0 100 95 110 (plain "none")
  = Some (1%Z, 110, "target").
Proof.
  refine (proj1 (find_exit_priority (plain "none") Samples.wide_bar 0
                   100 95 110 [] (Samples.quiet_bar 1 112 94 100 None) [] 95
                   _ _) _).
  - reflexivity.
  - reflexivity.
  - vm_compute. discriminate.
Defined.

(** C3: whatever the exit policy returns, the values of [current_stop] the
    loop works with, bar after bar over the life of one trade, never go
    down, and none is below the stop the trade was opened with. *)
Theorem current_stop_non_decreasing
    (strategy : Strategy) (df : DataFrame) (entry_idx : Z)
    (entry_price stop_price target_price : Q) :
  StronglySorted Qle
    (map ev_current_stop
       (snd (find_exit_traced df entry_idx entry_price stop_price
                              target_price strategy))) /\
  Forall (fun ev => stop_price <= ev_current_stop ev)
    (snd (find_exit_traced df entry_idx entry_price stop_price
                           target_price strategy)).
Proof.
  rewrite find_exit_traced_unfold. cbn [snd].
  destruct (find_exit_loop_stops strategy entry_price stop_price target_price
              (future_data df entry_idx) stop_price) as [Hall Hsorted].
  split; assumption.
Qed.



End ExitClaims.

(** ** The trade loop *)

Section TradeLoop.
Import Strategies Backtest.

Variable self : Backtester.
Variable strategy : Strategy.

(** What one pass of the trade loop can do to its two locals: leave them
    as they are, or append one closed trade and move the equity by its net
    result. *)
Lemma execute_step_cases (df : DataFrame) (trades : list Ledger.Trade)
    (equity : Q) (sig : Bar) :
  execute_step self df strategy (trades, equity) sig = (trades, equity) \/
  exists t e s g exit_price,
    execute_step self df strategy (trades, equity) sig
    = (trades ++ [t], Ledger.equity_after t) /\
    entry sig = Some e /\ stop sig = Some s /\ target sig = Some g /\
    PositionSizing.valid
      (PositionSizing.calculate_shares (PositionSizing.new equity)
         (e * (1 + slippage_pct self)) s None) = true /\
    _find_exit df (ts sig) (e * (1 + slippage_pct self)) s g strategy
    = Some (Ledger.exit_date t, exit_price, Ledger.exit_reason t) /\
    Ledger.entry_date t = ts sig /\
    Ledger.entry_price t = e * (1 + slippage_pct self) /\
    Ledger.exit_price t = exit_price * (1 - slippage_pct self) /\
    Ledger.gross_pnl t
    = inject_Z (Ledger.shares t) * (Ledger.exit_price t - Ledger.entry_price t) /\
    Ledger.commission t = commission self + commission self /\
    Ledger.net_pnl t = Ledger.gross_pnl t - Ledger.commission t /\
    Ledger.equity_after t = equity + Ledger.net_pnl t.
Proof.
  unfold execute_step.
  destruct (entry sig) as [e|]; [|left; reflexivity].
  destruct (stop sig) as [s|]; [|left; reflexivity].
  destruct (target sig) as [g|]; [|left; reflexivity].
  destruct (PositionSizing.valid _) eqn:Hvalid; cbn [negb];
    [|left; reflexivity].
  destruct (_find_exit _ _ _ _ _ _) as [[[exit_idx exit_price] reason]|] eqn:Hexit;
    [|left; reflexivity].
  right. cbv zeta.
  lazymatch goal with
  | |- context [ (trades ++ [?t0], _) ] => exists t0
  end.
  exists e, s, g, exit_price.
  split; [reflexivity|]. cbn.
  repeat split; try reflexivity; assumption.
Qed.

(** A property of ledger rows that every appended trade has holds of the
    whole ledger. *)
Lemma execute_fold_invariant (df : DataFrame) (P : Ledger.Trade -> Prop)
    (sigs : list Bar) :
  (forall trades equity sig t equity',
     In sig sigs ->
     execute_step self df strategy (trades, equity) sig = (trades ++ [t], equity') ->
     P t) ->
  forall st, Forall P (fst st) ->
  Forall P (fst (fold_left (execute_step self df strategy) sigs st)).
Proof.
  induction sigs as [|sig rest IH]; intros Hstep [trades equity] Hst.
  - exact Hst.
  - cbn [fold_left]. apply IH.
    + intros tr eq s t eq' Hin. apply Hstep. right. exact Hin.
    + destruct (execute_step_cases df trades equity sig)
        as [E|(t & e & s & g & x & E & _)]; rewrite E; cbn [fst].
      * exact Hst.
      * apply Forall_app. split; [exact Hst|].
        constructor; [|constructor].
        eapply (Hstep trades equity sig t); [left; reflexivity|exact E].
Qed.

(** The trade a pass appended, read back from the new ledger. *)
Lemma execute_step_appended (df : DataFrame) (trades : list Ledger.Trade)
    (equity : Q) (sig : Bar) (t : Ledger.Trade) (equity' : Q) :
  execute_step self df strategy (trades, equity) sig = (trades ++ [t], equity') ->
  exists e s g exit_price,
    entry sig = Some e /\ stop sig = Some s /\ target sig = Some g /\
    _find_exit df (ts sig) (e * (1 + slippage_pct self)) s g strategy
    = Some (Ledger.exit_date t, exit_price, Ledger.exit_reason t) /\
    Ledger.entry_date t = ts sig /\
    Ledger.gross_pnl t
    = inject_Z (Ledger.shares t) * (Ledger.exit_price t - Ledger.entry_price t) /\
    Ledger.commission t = commission self + commission self /\
    Ledger.net_pnl t = Ledger.gross_pnl t - Ledger.commission t.
Proof.
  intro H.
  destruct (execute_step_cases df trades equity sig)
    as [E|(t0 & e & s & g & x & E & He & Hs & Hg & _ & Hx & Hd & _ & _ & Hgp & Hc & Hn & _)];
    rewrite E in H.
  - exfalso. injection H as H _.
    apply (f_equal (@List.length _)) in H.
    rewrite length_app in H. cbn in H. lia.
  - injection H as H _. apply app_inv_head in H. injection H as <-.
    exists e, s, g, x. repeat split; assumption.
Qed.

(** A pass does not look at the trades made so far. *)
Lemma execute_step_ignores_ledger (df : DataFrame)
    (trades : list Ledger.Trade) (equity : Q) (sig : Bar) :
  execute_step self df strategy (trades, equity) sig =
  (trades ++ fst (execute_step self df strategy ([], equity) sig),
   snd (execute_step self df strategy ([], equity) sig)).
Proof.
  unfold execute_step.
  destruct (entry sig); [|cbn; rewrite app_nil_r; reflexivity].
  destruct (stop sig); [|cbn; rewrite app_nil_r; reflexivity].
  destruct (target sig); [|cbn; rewrite app_nil_r; reflexivity].
  destruct (negb _); [cbn; rewrite app_nil_r; reflexivity|].
  destruct (_find_exit _ _ _ _ _ _) as [[[exit_idx exit_price] reason]|];
    [|cbn; rewrite app_nil_r; reflexivity].
  reflexivity.
Qed.


End TradeLoop.

(** ** Sorted and duplicate-free indexes *)

Lemma StronglySorted_remove_middle {A} (R : A -> A -> Prop) (l1 : list A)
    (x : A) (l2 : list A) :
  StronglySorted R (l1 ++ x :: l2) -> StronglySorted R (l1 ++ l2).
Proof.
  induction l1 as [|a l1 IH]; cbn; intro H.
  - inversion H; assumption.
  - inversion H as [|? ? Hs Hall]; subst. constructor.
    + apply IH, Hs.
    + apply Forall_app in Hall. destruct Hall as [H1 H2].
      apply Forall_app. split; [exact H1|]. inversion H2; assumption.
Qed.

Lemma StronglySorted_map_filter {A} (f : A -> Z) (keep : A -> bool)
    (l : list A) :
  StronglySorted Z.lt (map f l) -> StronglySorted Z.lt (map f (filter keep l)).
Proof.
  induction l as [|a l IH]; cbn; intro H; [constructor|].
  inversion H as [|? ? Hs Hall]; subst.
  destruct (keep a); cbn; [|apply IH, Hs].
  constructor; [apply IH, Hs|].
  rewrite Forall_forall in *. intros z Hz.
  apply Hall. apply in_map_iff in Hz. destruct Hz as (b & <- & Hb).
  apply filter_In in Hb. apply in_map, Hb.
Qed.

Section Frames.
Import Strategies Backtest.

(** In a frame sorted by time, the rows after the entry row are later. *)
Lemma future_data_later (df : DataFrame) (entry_idx : Z) :
  StronglySorted Z.lt (map ts df) ->
  Forall (fun z => (entry_idx < z)%Z) (map ts (future_data df entry_idx)).
Proof.
  unfold future_data.
  induction df as [|bar rest IH]; cbn; intro H; [constructor|].
  inversion H as [|? ? Hs Hall]; subst.
  destruct (ts bar =? entry_idx)%Z eqn:E.
  - apply Z.eqb_eq in E. subst entry_idx. exact Hall.
  - apply IH, Hs.
Qed.







End Frames.

(** ** The ledger *)

Section LedgerClaims.
Import Strategies Backtest.

(** Every trade the loop appends is booked the same way. *)
Lemma ledger_pnl_accounting_aux
    (self : Backtester) (df : DataFrame) (strategy : Strategy)
    (t : Ledger.Trade) :
  In t (_execute_trades self df strategy) ->
  Ledger.net_pnl t = Ledger.gross_pnl t - Ledger.commission t /\
  Ledger.gross_pnl t
  = inject_Z (Ledger.shares t) * (Ledger.exit_price t - Ledger.entry_price t) /\
  Ledger.commission t = commission self + commission self.
Proof.
  revert t. apply Forall_forall.
  unfold _execute_trades, execute_loop.
  apply execute_fold_invariant; [|constructor].
  intros trades equity sig t equity' _ Hstep.
  apply execute_step_appended in Hstep.
  destruct Hstep as (e & s & g & x & _ & _ & _ & _ & _ & Hg & Hc & Hn).
  repeat split; assumption.
Qed.

(** C8: every trade of the ledger nets its gross result against its
    commission, the gross result is the share count times the difference of
    the two fills, and the commission recorded is twice the per-trade
    commission of the backtester. *)
Theorem ledger_pnl_accounting
    (self : Backtester) (df : DataFrame) (strategy : Strategy)
    (t : Ledger.Trade) :
  In t (_execute_trades self df strategy) ->
  Ledger.net_pnl t = Ledger.gross_pnl t - Ledger.commission t /\
  Ledger.gross_pnl t
  = inject_Z (Ledger.shares t) * (Ledger.exit_price t - Ledger.entry_price t) /\
  Ledger.commission t == 2 * commission self.
Proof.
  intro Hin.
  destruct (ledger_pnl_accounting_aux self df strategy t Hin) as (Hn & Hg & Hc).
  repeat split; try assumption.
  rewrite Hc. ring.
Qed.

Lemma ledger_pnl_accounting_witness :
  match _execute_trades Samples.default_backtester Samples.two_signals
                        (plain "none") with
  | t :: _ =>
      Ledger.net_pnl t = Ledger.gross_pnl t - Ledger.commission t /\
      Ledger.gross_pnl t
      = inject_Z (Ledger.shares t)
        * (Ledger.exit_price t - Ledger.entry_price t) /\
      Ledger.commission t == 2 * commission Samples.default_backtester
  | [] => False
  end.
Proof.
  pose proof (ledger_pnl_accounting Samples.default_backtester
                Samples.two_signals (plain "none")) as H.
  remember (_execute_trades Samples.default_backtester Samples.two_signals
                            (plain "none")) as ledger eqn:E.
  vm_compute in E. subst ledger.
  apply H. left. reflexivity.
Defined.

(** C1 as stated fails: two signals on consecutive bars both open a trade,
    and the second is entered at time 1 while the first stays open until
    time 2. *)
Lemma sequential_trades_fails : ~ Stated.sequential_trades.
Proof.
  intro H.
  specialize (H Samples.default_backtester Samples.two_signals (plain "none")).
  assert (StronglySorted Z.lt (map ts Samples.two_signals)) as Hs.
  { cbn. repeat constructor. }
  specialize (H Hs). vm_compute in H.
  destruct H as [H _]. apply H. reflexivity.
Qed.

Lemma ledger_entry_dates_sorted (self : Backtester) (df : DataFrame)
    (strategy : Strategy) (sigs : list Bar) :
  forall st,
    StronglySorted Z.lt (map Ledger.entry_date (fst st) ++ map ts sigs) ->
    StronglySorted Z.lt
      (map Ledger.entry_date
         (fst (fold_left (execute_step self df strategy) sigs st))).
Proof.
  induction sigs as [|sig rest IH]; intros [trades equity] H.
  - cbn in *. rewrite app_nil_r in H. exact H.
  - cbn [fold_left]. apply IH.
    destruct (execute_step_cases self strategy df trades equity sig)
      as [E|(t & e & s & g & x & E & _ & _ & _ & _ & _ & Hd & _)];
      rewrite E; cbn [fst] in *.
    + eapply StronglySorted_remove_middle. exact H.
    + rewrite map_app, <- app_assoc. cbn. rewrite Hd. exact H.
Qed.

(** C1, amended: over a series sorted by time, the ledger lists its trades
    in strictly increasing order of entry timestamp and every trade exits
    strictly after its own entry.  A pass of the loop reads the running
    equity but never the trades made so far: from the same equity it
    appends the same trade whatever the ledger holds, so nothing ties a
    trade's entry to the exit of the one before it. *)
Theorem ledger_ordered_by_entry
    (self : Backtester) (df : DataFrame) (strategy : Strategy) :
  StronglySorted Z.lt (map ts df) ->
  StronglySorted Z.lt
    (map Ledger.entry_date (_execute_trades self df strategy)) /\
  Forall (fun t => (Ledger.entry_date t < Ledger.exit_date t)%Z)
    (_execute_trades self df strategy) /\
  (forall trades equity sig,
     fst (execute_step self df strategy (trades, equity) sig)
     = trades ++ fst (execute_step self df strategy ([], equity) sig)).
Proof.
  intro Hsorted. unfold _execute_trades, execute_loop. repeat split.
  - apply ledger_entry_dates_sorted. cbn.
    apply StronglySorted_map_filter, Hsorted.
  - apply execute_fold_invariant; [|constructor].
    intros trades equity sig t equity' _ Hstep.
    apply execute_step_appended in Hstep.
    destruct Hstep as (e & s & g & x & _ & _ & _ & Hexit & Hd & _).
    rewrite find_exit_unfold in Hexit.
    destruct (fst (find_exit_loop _ _ _ _ _ _)) as [r|] eqn:Hloop;
      [|discriminate].
    injection Hexit as ->.
    apply find_exit_loop_idx in Hloop.
    pose proof (future_data_later df (ts sig) Hsorted) as Hlater.
    rewrite Forall_forall in Hlater. rewrite Hd. apply Hlater, Hloop.
  - intros trades equity sig.
    rewrite execute_step_ignores_ledger. reflexivity.
Qed.

Lemma ledger_ordered_by_entry_witness :
  StronglySorted Z.lt
    (map Ledger.entry_date
       (_execute_trades Samples.default_backtester Samples.two_signals
                        (plain "none"))).
Proof.
  refine (proj1 (ledger_ordered_by_entry Samples.default_backtester
                   Samples.two_signals (plain "none") _)).
  cbn. repeat constructor.
Defined.

End LedgerClaims.

(** ** Trades that never close, and runs that never start *)

Section Discarded.
Import Strategies Backtest.






(** Without positive equity nothing can be sized. *)
Lemma calculate_shares_needs_equity (self : PositionSizing.PositionSizer)
    (entry_price stop_price : Q) (risk_pct : option Q) :
  PositionSizing.equity self <= 0 ->
  PositionSizing.valid
    (PositionSizing.calculate_shares self entry_price stop_price risk_pct)
  = false.
Proof.
  intro H. unfold PositionSizing.calculate_shares.
  destruct (Qle_bool entry_price 0); [reflexivity|].
  destruct (Qle_bool stop_price 0); [reflexivity|].
  destruct (Qle_bool entry_price stop_price); [reflexivity|].
  apply Qle_bool_iff in H. rewrite H. reflexivity.
Qed.

Lemma execute_loop_without_equity (self : Backtester) (df : DataFrame)
    (strategy : Strategy) (sigs : list Bar) :
  forall trades equity,
    equity <= 0 ->
    fold_left (execute_step self df strategy) sigs (trades, equity)
    = (trades, equity).
Proof.
  induction sigs as [|sig rest IH]; intros trades equity H; [reflexivity|].
  cbn [fold_left].
  assert (execute_step self df strategy (trades, equity) sig
          = (trades, equity)) as ->.
  { unfold execute_step.
    destruct (entry sig); [|reflexivity].
    destruct (stop sig); [|reflexivity].
    destruct (target sig); [|reflexivity].
    rewrite calculate_shares_needs_equity by exact H. reflexivity. }
  apply IH, H.
Qed.

(** C10 as stated fails: with a commission of -1 per trade the run goes
    through and returns a ledger. *)
Lemma configuration_errors_raise_fails : ~ Stated.configuration_errors_raise.
Proof.
  intro H.
  destruct (H 25000 (-1) (1 # 1000) (plain "none") Samples.two_signals)
    as [e He].
  - left. reflexivity.
  - vm_compute in He. discriminate He.
Qed.

(** The entry fill of an appended trade is the entry price of its signal
    marked up by the slippage. *)
Lemma execute_step_appended_fill (self : Backtester) (strategy : Strategy)
    (df : DataFrame) (trades : list Ledger.Trade) (equity : Q) (sig : Bar)
    (t : Ledger.Trade) (equity' : Q) :
  execute_step self df strategy (trades, equity) sig = (trades ++ [t], equity') ->
  exists e,
    entry sig = Some e /\
    Ledger.entry_date t = ts sig /\
    Ledger.entry_price t = e * (1 + slippage_pct self).
Proof.
  intro H.
  destruct (execute_step_cases self strategy df trades equity sig)
    as [E|(t0 & e & s & g & x & E & He & _ & _ & _ & _ & Hd & Hp & _)];
    rewrite E in H.
  - exfalso. injection H as H _.
    apply (f_equal (@List.length _)) in H.
    rewrite length_app in H. cbn in H. lia.
  - injection H as H _. apply app_inv_head in H. injection H as <-.
    exists e. repeat split; assumption.
Qed.

(** C10, amended: an invalid configuration is not rejected, the run goes
    through with the values as they are given.  With a non-positive initial
    capital position sizing rejects every signal, so the ledger is empty and
    the run reports that no trades were generated.  A negative commission
    or slippage is applied like any other value: every trade of the ledger
    records twice the configured commission, nets its gross result less
    twice that commission, and is entered at the entry price of its signal
    times [1 + slippage_pct]. *)
Theorem invalid_configuration_applied_as_given
    (self : Backtester) (strategy : Strategy) (df : DataFrame) :
  (initial_capital self <= 0 ->
   _execute_trades self df strategy = [] /\
   run self strategy df = Returned None) /\
  Forall (fun t =>
            Ledger.commission t == 2 * commission self /\
            Ledger.net_pnl t == Ledger.gross_pnl t - 2 * commission self /\
            exists sig e,
              In sig (signals df) /\
              ts sig = Ledger.entry_date t /\
              entry sig = Some e /\
              Ledger.entry_price t = e * (1 + slippage_pct self))
         (_execute_trades self df strategy).
Proof.
  split.
  - intro H.
    assert (_execute_trades self df strategy = []) as E.
    { unfold _execute_trades, execute_loop.
      rewrite execute_loop_without_equity by exact H. reflexivity. }
    split; [exact E|]. unfold run. rewrite E. reflexivity.
  - unfold _execute_trades, execute_loop.
    apply execute_fold_invariant; [|constructor].
    intros trades equity sig t equity' Hin Hstep.
    destruct (execute_step_appended_fill _ _ _ _ _ _ _ _ Hstep)
      as (e & He & Hd & Hp).
    apply execute_step_appended in Hstep.
    destruct Hstep as (_ & _ & _ & _ & _ & _ & _ & _ & _ & _ & Hc & Hn).
    repeat split.
    + rewrite Hc. ring.
    + rewrite Hn, Hc. ring.
    + exists sig, e. repeat split; try assumption. symmetry. exact Hd.
Qed.

Lemma invalid_configuration_applied_as_given_witness :
  _execute_trades
    {| initial_capital := 0; commission := -1; slippage_pct := -1 # 1000 |}
    Samples.two_signals (plain "none") = [] /\
  run {| initial_capital := 0; commission := -1; slippage_pct := -1 # 1000 |}
      (plain "none") Samples.two_signals = Returned None.
Proof.
  apply (proj1 (invalid_configuration_applied_as_given
                  {| initial_capital := 0; commission := -1;
                     slippage_pct := -1 # 1000 |}
                  (plain "none") Samples.two_signals)).
  cbn. discriminate.
Defined.

End Discarded.

(** ** Drawdown *)

Section Drawdown.
Import Backtest.

Lemma cummax_from_labels (s : Series) : forall m,
  map fst (cummax_from m s) = map fst s.
Proof.
  induction s as [|[i x] rest IH]; intro m; cbn; [reflexivity|].
  rewrite IH. reflexivity.
Qed.

Lemma cummax_labels (s : Series) : map fst (cummax s) = map fst s.
Proof.
  destruct s as [|[i x] rest]; cbn; [reflexivity|].
  rewrite cummax_from_labels. reflexivity.
Qed.



(** Each point of [cummax] bounds the curve up to that point. *)
Lemma cummax_from_bounds (s : Series) : forall m i l d,
  nth_error (cummax_from m s) i = Some (l, d) ->
  m <= d /\
  (forall j p, (j <= i)%nat -> nth_error s j = Some p -> snd p <= d).
Proof.
  induction s as [|[l0 x] rest IH]; intros m i l d H.
  - destruct i; discriminate.
  - cbn [cummax_from] in H. destruct i as [|i]; cbn in H.
    + injection H as _ <-. split; [apply py_max_ge_l|].
      intros j p Hj Hp. assert (j = 0)%nat as -> by lia.
      cbn in Hp. injection Hp as <-. apply py_max_ge_r.
    + destruct (IH _ _ _ _ H) as [Hm Hall]. split.
      * eapply Qle_trans; [apply py_max_ge_l|exact Hm].
      * intros [|j] p Hj Hp; cbn in Hp.
        -- injection Hp as <-. cbn.
           eapply Qle_trans; [apply py_max_ge_r|exact Hm].
        -- apply (Hall j p); [lia|exact Hp].
Qed.

Lemma running_max_bounds (equity_curve : Series) (i : nat) (l : Z) (d : Q) :
  nth_error (running_max equity_curve) i = Some (l, d) ->
  forall j p, (j <= i)%nat -> nth_error equity_curve j = Some p -> snd p <= d.
Proof.
  unfold running_max. destruct equity_curve as [|[l0 x] rest]; cbn [cummax].
  - destruct i; discriminate.
  - intros H j p Hj Hp. destruct i as [|i]; cbn in H.
    + injection H as _ <-. assert (j = 0)%nat as -> by lia.
      cbn in Hp. injection Hp as <-. apply Qle_refl.
    + destruct (cummax_from_bounds _ _ _ _ _ H) as [Hm Hall].
      destruct j as [|j]; cbn in Hp.
      * injection Hp as <-. exact Hm.
      * apply (Hall j p); [lia|exact Hp].
Qed.

(** A point of the difference of two series is the difference of their
    points. *)
Lemma series_sub_nth (a b : Series) : forall i l v,
  nth_error (series_sub a b) i = Some (l, v) ->
  exists x l' y,
    nth_error a i = Some (l, x) /\ nth_error b i = Some (l', y) /\ v = x - y.
Proof.
  revert b. induction a as [|[la x] a IH]; intros [|[lb y] b] i l v H;
    try (destruct i; discriminate).
  cbn [series_sub] in H. destruct i as [|i]; cbn in H.
  - injection H as <- <-. exists x, lb, y. repeat split.
  - apply IH in H. exact H.
Qed.

(** The running best of a scan: either the starting point, which nothing in
    the series exceeds, or the first row of the series that reaches the
    largest value. *)
Lemma best_from_spec (s : Series) : forall best,
  (best_from best s = best /\ Forall (fun p => snd p <= snd best) s) \/
  (exists i,
     nth_error s i = Some (best_from best s) /\
     snd best < snd (best_from best s) /\
     (forall j p, (j < i)%nat -> nth_error s j = Some p ->
                  snd p < snd (best_from best s)) /\
     Forall (fun p => snd p <= snd (best_from best s)) s).
Proof.
  induction s as [|[l x] rest IH]; intro best.
  - left. split; [reflexivity|constructor].
  - cbn [best_from]. destruct (Qlt_bool (snd best) x) eqn:E.
    + apply Qlt_bool_iff in E. right.
      destruct (IH (l, x)) as [[Hb Hall]|(i & Hi & Hlt & Hfirst & Hall)].
      * exists 0%nat. rewrite Hb. cbn. repeat split.
        -- exact E.
        -- intros j p Hj. lia.
        -- constructor; [cbn; apply Qle_refl|exact Hall].
      * exists (S i). cbn [nth_error snd] in *. repeat split.
        -- exact Hi.
        -- eapply Qlt_trans; eassumption.
        -- intros [|j] p Hj Hp.
           ++ cbn in Hp. injection Hp as <-. exact Hlt.
           ++ cbn in Hp. apply (Hfirst j p); [lia|exact Hp].
        -- constructor; [cbn; apply Qlt_le_weak, Hlt|exact Hall].
    + apply Qlt_bool_false in E.
      destruct (IH best) as [[Hb Hall]|(i & Hi & Hlt & Hfirst & Hall)].
      * left. split; [exact Hb|]. constructor; [exact E|exact Hall].
      * right. exists (S i). cbn [nth_error]. repeat split.
        -- exact Hi.
        -- exact Hlt.
        -- intros [|j] p Hj Hp.
           ++ cbn in Hp. injection Hp as <-. cbn.
              eapply Qle_lt_trans; eassumption.
           ++ cbn in Hp. apply (Hfirst j p); [lia|exact Hp].
        -- constructor; [|exact Hall]. cbn.
           apply Qlt_le_weak. eapply Qle_lt_trans; eassumption.
Qed.

(** [s.max()] and [s.idxmax()] name the first row that reaches the largest
    value of the series. *)
Lemma series_max_first (s : Series) (m : Q) :
  series_max s = Some m ->
  exists i label,
    idxmax s = Some label /\
    nth_error s i = Some (label, m) /\
    (forall j p, (j < i)%nat -> nth_error s j = Some p -> snd p < m) /\
    Forall (fun p => snd p <= m) s.
Proof.
  destruct s as [|p rest]; [discriminate|].
  cbn [series_max idxmax]. intro H. injection H as <-.
  destruct (best_from_spec rest p) as [[Hb Hall]|(i & Hi & Hlt & Hfirst & Hall)].
  - exists 0%nat, (fst p). rewrite Hb. repeat split.
    + cbn. destruct p; reflexivity.
    + intros j q Hj. lia.
    + constructor; [apply Qle_refl|exact Hall].
  - exists (S i), (fst (best_from p rest)). repeat split.
    + cbn. rewrite Hi. destruct (best_from p rest); reflexivity.
    + intros [|j] q Hj Hq.
      * cbn in Hq. injection Hq as <-. exact Hlt.
      * cbn in Hq. apply (Hfirst j q); [lia|exact Hq].
    + constructor; [apply Qlt_le_weak, Hlt|exact Hall].
Qed.

Lemma loc_absent (s : Series) (label : Z) :
  ~ In label (map fst s) -> loc s label = [].
Proof.
  unfold loc. induction s as [|[l x] rest IH]; cbn; intro H; [reflexivity|].
  destruct (l =? label)%Z eqn:E.
  - apply Z.eqb_eq in E. exfalso. apply H. left. exact E.
  - apply IH. intro Hin. apply H. right. exact Hin.
Qed.

(** Under an index without duplicates, a label picks out one value. *)
Lemma loc_unique (s : Series) : forall i label d,
  NoDup (map fst s) ->
  nth_error s i = Some (label, d) ->
  loc s label = [d].
Proof.
  induction s as [|[l x] rest IH]; intros i label d Hnd Hi.
  - destruct i; discriminate.
  - cbn in Hnd. inversion Hnd as [|? ? Hnotin Hnd']; subst.
    destruct i as [|i]; cbn in Hi.
    + injection Hi as -> ->.
      pose proof (loc_absent rest label Hnotin) as Hrest.
      unfold loc in *. cbn. rewrite Z.eqb_refl. cbn. rewrite Hrest.
      reflexivity.
    + assert (In label (map fst rest)) as Hin.
      { apply nth_error_In in Hi. apply (in_map fst) in Hi. exact Hi. }
      assert ((l =? label)%Z = false) as E.
      { apply Z.eqb_neq. intro. subst l. contradiction. }
      specialize (IH i label d Hnd' Hi).
      unfold loc in *. cbn. rewrite E. exact IH.
Qed.




End Drawdown.

(** * Part III: the code around the claims *)

(** ** Position sizing: what a result guarantees *)

Section SizingRest.
Import PositionSizing PositionSizingRest.

Lemma Qdiv_le_upper (a b c : Q) : 0 < b -> a / b <= c -> a <= c * b.
Proof.
  intros Hb H.
  assert (a / b * b <= c * b) as Hm
    by (apply Qmult_le_compat_r; [exact H|lra]).
  assert (a / b * b == a) as E by (field; lra).
  rewrite E in Hm. exact Hm.
Qed.


(** What the branches of [calculate_shares] leave true of a valid result. *)
Lemma valid_sizing_facts
    (self : PositionSizer) (entry_price stop_price : Q)
    (risk_pct_arg : option Q) :
  valid (calculate_shares self entry_price stop_price risk_pct_arg) = true ->
  (1 <= shares (calculate_shares self entry_price stop_price risk_pct_arg))%Z /\
  0 < stop_price /\ stop_price < entry_price /\ 0 < equity self /\
  position_value (calculate_shares self entry_price stop_price risk_pct_arg)
  = inject_Z (shares (calculate_shares self entry_price stop_price
                                       risk_pct_arg)) * entry_price /\
  risk_dollars (calculate_shares self entry_price stop_price risk_pct_arg)
  = inject_Z (shares (calculate_shares self entry_price stop_price
                                       risk_pct_arg))
    * (entry_price - stop_price) /\
  position_value (calculate_shares self entry_price stop_price risk_pct_arg)
  <= max_position_pct self * equity self /\
  risk_dollars (calculate_shares self entry_price stop_price risk_pct_arg)
  <= max_risk_pct self * equity self.
Proof.
  unfold calculate_shares.
  destruct (Qle_bool entry_price 0) eqn:E1; [discriminate|].
  destruct (Qle_bool stop_price 0) eqn:E2; [discriminate|].
  destruct (Qle_bool entry_price stop_price) eqn:E3; [discriminate|].
  destruct (Qle_bool (equity self) 0) eqn:E4; [discriminate|].
  cbv zeta.
  destruct (Z.min _ _ <? 1)%Z eqn:E5; [discriminate|].
  destruct (Qlt_bool (max_position_pct self) _) eqn:E6; [discriminate|].
  destruct (Qlt_bool (max_risk_pct self) _) eqn:E7; [discriminate|].
  intros _. cbn.
  apply Qle_bool_false in E1, E2, E3, E4.
  apply Z.ltb_ge in E5. apply Qlt_bool_false in E6, E7.
  repeat split; try assumption; try reflexivity.
  - apply Qdiv_le_upper; assumption.
  - apply Qdiv_le_upper; assumption.
Qed.



(** X2: the validations reject in a fixed order, and a rejected result
    carries no shares and no value.  A non-positive entry is named first,
    then a non-positive stop, then a stop at or above the entry, then
    non-positive equity. *)
Theorem calculate_shares_rejections
    (self : PositionSizer) (entry_price stop_price : Q)
    (risk_pct_arg : option Q) :
  let r := calculate_shares self entry_price stop_price risk_pct_arg in
  (entry_price <= 0 -> reason r = "Entry price must be positive") /\
  (0 < entry_price -> stop_price <= 0 ->
   reason r = "Stop price must be positive") /\
  (0 < entry_price -> 0 < stop_price -> entry_price <= stop_price ->
   reason r = "Stop price must be below entry price (long only)") /\
  (0 < stop_price -> stop_price < entry_price -> equity self <= 0 ->
   reason r = "Equity must be positive") /\
  (valid r = false ->
   shares r = 0%Z /\ position_value r = 0 /\ risk_dollars r = 0 /\
   reason r <> "OK").
Proof.
  cbv zeta. unfold calculate_shares.
  destruct (Qle_bool entry_price 0) eqn:E1.
  { apply Qle_bool_iff in E1. cbn.
    repeat split; intros; try reflexivity; try congruence; exfalso; lra. }
  apply Qle_bool_false in E1.
  destruct (Qle_bool stop_price 0) eqn:E2.
  { apply Qle_bool_iff in E2. cbn.
    repeat split; intros; try reflexivity; try congruence; exfalso; lra. }
  apply Qle_bool_false in E2.
  destruct (Qle_bool entry_price stop_price) eqn:E3.
  { apply Qle_bool_iff in E3. cbn.
    repeat split; intros; try reflexivity; try congruence; exfalso; lra. }
  apply Qle_bool_false in E3.
  destruct (Qle_bool (equity self) 0) eqn:E4.
  { apply Qle_bool_iff in E4. cbn.
    repeat split; intros; try reflexivity; try congruence; exfalso; lra. }
  apply Qle_bool_false in E4.
  cbv zeta.
  destruct (Z.min _ _ <? 1)%Z;
    [|destruct (Qlt_bool (max_position_pct self) _);
      [|destruct (Qlt_bool (max_risk_pct self) _)]];
    cbn; repeat split; intros; try reflexivity; try congruence;
    exfalso; lra.
Qed.

Lemma calculate_shares_rejections_witness :
  reason (calculate_shares (new 25000) 50 55 None)
  = "Stop price must be below entry price (long only)".
Proof.
  destruct (calculate_shares_rejections (new 25000) 50 55 None)
    as (_ & _ & H & _).
  apply H; [reflexivity|reflexivity|vm_compute; discriminate].
Defined.

(** X3: the trailing stop is never below the entry price, never below the
    original stop when one is given, and never below the ATR distance from
    the current price. *)
Theorem calculate_trailing_stop_floors
    (self : PositionSizer) (entry_price current_price atr atr_multiplier : Q)
    (original_stop : option Q) :
  let stop := calculate_trailing_stop self entry_price current_price atr
                                      atr_multiplier original_stop in
  entry_price <= stop /\
  current_price - atr * atr_multiplier <= stop /\
  (forall o, original_stop = Some o -> o <= stop).
Proof.
  cbv zeta. unfold calculate_trailing_stop.
  repeat split.
  - apply py_max_ge_r.
  - destruct original_stop as [o|].
    + eapply Qle_trans; [apply (py_max_ge_l _ o)|apply py_max_ge_l].
    + apply py_max_ge_l.
  - intros o ->. eapply Qle_trans; [apply py_max_ge_r|apply py_max_ge_l].
Qed.



(** X5: the reward-to-risk ratio the journal records for a signal undoes
    the target calculation: for a stop below the entry, the ratio of the
    target computed for [r_multiple] is [r_multiple] again. *)
Theorem r_ratio_of_target_price
    (self : PositionSizer) (entry_price stop_price r_multiple : Q) :
  stop_price < entry_price ->
  Journal.r_ratio entry_price stop_price
    (calculate_target_price self entry_price stop_price r_multiple)
  == r_multiple.
Proof.
  intro H. unfold Journal.r_ratio, calculate_target_price.
  replace (Qlt_bool stop_price entry_price) with true
    by (symmetry; apply Qlt_bool_iff; exact H).
  field. lra.
Qed.

Lemma r_ratio_of_target_price_witness :
  Journal.r_ratio 100 95 (calculate_target_price (new 25000) 100 95 2) == 2.
Proof.
  apply (r_ratio_of_target_price (new 25000) 100 95 2). reflexivity.
Defined.

End SizingRest.

(** ** Risk manager: share limit, sized trades and intraday alerts *)

Section RiskLimit.
Import Double Double.PositionSizing.

(** X6: the risk manager's share limit against the sizer's answer, in
    double arithmetic and with the same equity and caps.
    [calculate_max_shares] returns 0 for prices that are not a long set-up;
    whenever the sizer returns a valid result, [calculate_max_shares]
    returns the share count of that result, which is at least 1.  The
    converse fails: at equity 25000, entry 681.8181818181819 and stop
    660.9848484848485 the limit is 11 while the sizer's result is
    invalid. *)
Theorem calculate_max_shares_agrees_with_sizer
    (self : Risk.RiskManager) (entry_price stop_price : float) :
  let sizer := {| equity := Risk.equity self;
                  max_position_pct := Risk.max_position_pct self;
                  max_risk_pct := Risk.max_risk_pct self |} in
  ((entry_price <=? stop_price)%float || (entry_price <=? 0)%float
   || (stop_price <=? 0)%float = true ->
   Risk.calculate_max_shares self entry_price stop_price = Return 0%Z) /\
  (forall r,
     calculate_shares sizer entry_price stop_price None = Return r ->
     valid r = true ->
     Risk.calculate_max_shares self entry_price stop_price
     = Return (shares r) /\
     (1 <= shares r)%Z) /\
  (exists r,
     calculate_shares (new 25000) 681.8181818181819 660.9848484848485 None
     = Return r /\
     valid r = false /\
     Risk.calculate_max_shares (Risk.new 25000)
       681.8181818181819 660.9848484848485 = Return 11%Z).
Proof.
  cbv zeta. split; [|split].
  - intro H. unfold Risk.calculate_max_shares. rewrite H. reflexivity.
  - intros r Hr Hv. unfold calculate_shares in Hr.
    cbn [equity max_position_pct max_risk_pct] in Hr.
    unfold Risk.calculate_max_shares.
    destruct (entry_price <=? 0)%float;
      [injection Hr as <-; discriminate Hv|].
    destruct (stop_price <=? 0)%float;
      [injection Hr as <-; discriminate Hv|].
    destruct (entry_price <=? stop_price)%float;
      [injection Hr as <-; discriminate Hv|].
    destruct (Risk.equity self <=? 0)%float;
      [injection Hr as <-; discriminate Hv|].
    cbn [orb]. cbv zeta in Hr.
    destruct (int_div _ (entry_price - stop_price)) as [a|]; [|discriminate Hr].
    cbn [bind] in *.
    destruct (int_div _ entry_price) as [b|]; [|discriminate Hr].
    cbn [bind] in *.
    destruct (Z.min a b <? 1)%Z eqn:Hlt;
      [injection Hr as <-; discriminate Hv|].
    apply Z.ltb_ge in Hlt.
    destruct (of_int (Z.min a b)) as [n|]; [|discriminate Hr].
    cbn [bind] in Hr.
    destruct (div (n * entry_price) _) as [pp|]; [|discriminate Hr].
    cbn [bind] in Hr.
    destruct (div (n * (entry_price - stop_price)) _) as [rp|];
      [|discriminate Hr].
    cbn [bind] in Hr.
    destruct (Risk.max_position_pct self <? pp)%float;
      [injection Hr as <-; discriminate Hv|].
    destruct (Risk.max_risk_pct self <? rp)%float;
      [injection Hr as <-; discriminate Hv|].
    injection Hr as <-. cbn. split; [reflexivity|exact Hlt].
  - eexists. vm_compute. repeat split.
Qed.

Lemma calculate_max_shares_agrees_with_sizer_witness :
  Risk.calculate_max_shares (Risk.new 25000) 50 55 = Return 0%Z /\
  Risk.calculate_max_shares (Risk.new 25000) 150 145 = Return 50%Z.
Proof.
  split.
  - apply (proj1 (calculate_max_shares_agrees_with_sizer
                    (Risk.new 25000) 50 55)).
    vm_compute. reflexivity.
  - apply (proj1 (proj2 (calculate_max_shares_agrees_with_sizer
                           (Risk.new 25000) 150 145))
             {| shares := 50; position_value := 7500; position_pct := 0.3;
                risk_dollars := 250; risk_pct := 0.01; risk_per_share := 5;
                valid := true; reason := "OK" |}).
    + vm_compute. reflexivity.
    + reflexivity.
Defined.

End RiskLimit.

Section RiskRestFacts.
Import Risk RiskRest.

(** X7: a trade sized by [PositionSizer(equity)] never fails the position
    size check or the risk check of [RiskManager(equity)], whatever is held
    and whatever liquidity is reported; with nothing held and no liquidity
    information it is approved exactly when its entry price is not below
    the minimum stock price. *)
Theorem sized_trade_passes_size_and_risk_checks
    (account_equity : Q) (sym : string) (entry_price stop_price : Q)
    (current_positions : list Position) (liquidity_check : option dict) :
  let sized :=
    PositionSizing.calculate_shares (PositionSizing.new account_equity)
                                    entry_price stop_price None in
  PositionSizing.valid sized = true ->
  (exists approved reasons,
     check_pre_trade (new account_equity) sym entry_price
       (PositionSizing.position_value sized)
       (PositionSizing.risk_dollars sized)
       current_positions liquidity_check
     = Returned (approved, reasons) /\
     ~ In msg_position_size reasons /\ ~ In msg_risk reasons) /\
  check_pre_trade (new account_equity) sym entry_price
    (PositionSizing.position_value sized)
    (PositionSizing.risk_dollars sized) [] None
  = Returned
      (if Qlt_bool entry_price Config.MIN_STOCK_PRICE
       then (false, [msg_min_price]) else (true, [msg_passed])).
Proof.
  cbv zeta. intro Hvalid.
  destruct (valid_sizing_facts
              (PositionSizing.new account_equity) entry_price stop_price None
              Hvalid)
    as (Hshares & Hs & Hes & Heq & Hpv & Hrd & Hcap1 & Hcap2).
  cbn [PositionSizing.equity PositionSizing.max_position_pct
       PositionSizing.max_risk_pct PositionSizing.new] in *.
  set (pv := PositionSizing.position_value _) in *.
  set (rd := PositionSizing.risk_dollars _) in *.
  assert (Qlt_bool Config.MAX_POSITION_SIZE_PCT (pv / account_equity) = false)
    as C2.
  { apply Qlt_bool_false. apply Qle_shift_div_r; assumption. }
  assert (Qlt_bool Config.MAX_RISK_PER_TRADE_PCT (rd / account_equity) = false)
    as C3.
  { apply Qlt_bool_false. apply Qle_shift_div_r; assumption. }
  assert (Qeq_bool account_equity 0 = false) as E0.
  { apply Qeq_bool_false_of_neq. intro E. rewrite E in Heq.
    apply (Qlt_irrefl 0), Heq. }
  split.
  - unfold check_pre_trade, py_div.
    cbn [equity max_positions max_position_pct max_risk_pct new].
    rewrite E0. cbn [bind]. rewrite C2, C3.
    unfold Config.LEVERAGE_ALLOWED. cbn [negb].
    destruct liquidity_check as [[|kv d]|]; cbn [truthy];
      try (destruct (Qlt_bool (dict_get (kv :: d) "avg_dollar_volume" 0)
                              Config.MIN_AVG_DOLLAR_VOLUME));
      destruct (Config.MAX_POSITIONS <=? Z.of_nat (List.length current_positions))%Z,
               (has_symbol sym current_positions),
               (Qlt_bool entry_price Config.MIN_STOCK_PRICE),
               (Qlt_bool (account_equity * (101 # 100))
                         (sum_market_value current_positions + pv));
      cbn; eexists; eexists; (split; [reflexivity|]);
      split; cbn; intuition discriminate.
  - unfold check_pre_trade, py_div.
    cbn [equity max_positions max_position_pct max_risk_pct new].
    rewrite E0. cbn [bind]. rewrite C2, C3.
    unfold Config.LEVERAGE_ALLOWED. cbn [negb truthy].
    assert (Qlt_bool (account_equity * (101 # 100))
                     (sum_market_value [] + pv) = false) as C7.
    { apply Qlt_bool_false. unfold sum_market_value. cbn [fold_left].
      unfold Config.MAX_POSITION_SIZE_PCT in Hcap1.
      assert (0 <= account_equity * (71 # 100)).
      { apply Qmult_le_0_compat; [lra|]. unfold Qle. cbn. lia. }
      lra. }
    rewrite C7. cbn.
    destruct (Qlt_bool entry_price Config.MIN_STOCK_PRICE); reflexivity.
Qed.

Lemma sized_trade_passes_size_and_risk_checks_witness :
  check_pre_trade (new 25000) "AAPL" 150
    (PositionSizing.position_value
       (PositionSizing.calculate_shares (PositionSizing.new 25000) 150 145 None))
    (PositionSizing.risk_dollars
       (PositionSizing.calculate_shares (PositionSizing.new 25000) 150 145 None))
    [] None
  = Returned (true, [msg_passed]).
Proof.
  destruct (sized_trade_passes_size_and_risk_checks 25000 "AAPL" 150 145
              [] None) as (_ & H); [reflexivity|].
  rewrite H. reflexivity.
Defined.

(** *** Intraday alerts *)

Lemma dict_set_keys (alerts : alerts_dict) (key : string) (value : list string)
    (k : string) :
  In k (map fst (dict_set alerts key value)) <->
  k = key \/ In k (map fst alerts).
Proof.
  induction alerts as [|[k0 v0] rest IH]; cbn.
  - intuition.
  - destruct (String.eqb k0 key) eqn:E; cbn.
    + apply String.eqb_eq in E. subst k0. intuition.
    + rewrite IH. intuition.
Qed.

Lemma dict_set_nodup (alerts : alerts_dict) (key : string)
    (value : list string) :
  NoDup (map fst alerts) -> NoDup (map fst (dict_set alerts key value)).
Proof.
  induction alerts as [|[k0 v0] rest IH]; cbn; intro H.
  - constructor; [intros []|constructor].
  - inversion H as [|? ? Hnotin Hrest]; subst.
    destruct (String.eqb k0 key) eqn:E; cbn.
    + constructor; assumption.
    + constructor; [|apply IH, Hrest].
      rewrite dict_set_keys. intros [->|Hin]; [|contradiction].
      rewrite String.eqb_refl in E. discriminate.
Qed.

Lemma dict_set_values (alerts : alerts_dict) (key : string)
    (value : list string) (P : list string -> Prop) :
  P value -> Forall (fun kv => P (snd kv)) alerts ->
  Forall (fun kv => P (snd kv)) (dict_set alerts key value).
Proof.
  intros Hv. induction alerts as [|[k0 v0] rest IH]; cbn; intro H.
  - constructor; [exact Hv|constructor].
  - inversion H; subst.
    destruct (String.eqb k0 key); constructor; auto.
Qed.

Lemma check_intraday_loop_shape (self : RiskManager) (hour : Z)
    (positions : list HeldPosition) :
  forall alerts result,
    check_intraday_loop self hour positions alerts = Returned result ->
    NoDup (map fst alerts) ->
    Forall (fun kv => snd kv <> []) alerts ->
    NoDup (map fst result) /\
    Forall (fun kv => snd kv <> []) result /\
    (forall k, In k (map fst result) ->
               In k (map fst alerts) \/ In k (map held_symbol positions)) /\
    (forall k, In k (map fst alerts) -> In k (map fst result)).
Proof.
  induction positions as [|pos rest IH]; intros alerts result Hrun Hnd Hne.
  - cbn in Hrun. injection Hrun as <-. repeat split; auto.
  - cbn [check_intraday_loop] in Hrun.
    destruct (position_alerts self hour pos) as [pos_alerts|e]; [|discriminate].
    cbn [bind] in Hrun.
    destruct pos_alerts as [|a l].
    + destruct (IH _ _ Hrun Hnd Hne) as (H1 & H2 & H3 & H4).
      repeat split; auto.
      intros k Hk. destruct (H3 k Hk); [left|right; right]; assumption.
    + assert (a :: l <> []) as Hal by discriminate.
      destruct (IH _ _ Hrun (dict_set_nodup _ _ _ Hnd)
                  (dict_set_values _ _ _ (fun v => v <> []) Hal Hne))
        as (H1 & H2 & H3 & H4).
      repeat split; auto.
      * intros k Hk. destruct (H3 k Hk) as [Hin|Hin].
        -- apply dict_set_keys in Hin. destruct Hin as [->|Hin];
             [right; left; reflexivity|left; exact Hin].
        -- right; right; exact Hin.
      * intros k Hk. apply H4. apply dict_set_keys. right. exact Hk.
Qed.

(** X8: the alerts dict of [check_intraday] has one entry per alerted
    symbol, every entry lists at least one alert, and every key is the
    symbol of one of the positions passed in. *)
Theorem check_intraday_alerts_shape
    (self : RiskManager) (positions : list HeldPosition) (hour : Z)
    (alerts : alerts_dict) :
  check_intraday self positions hour = Returned alerts ->
  NoDup (map fst alerts) /\
  Forall (fun kv => snd kv <> []) alerts /\
  (forall k, In k (map fst alerts) -> In k (map held_symbol positions)).
Proof.
  unfold check_intraday. intro H.
  destruct (check_intraday_loop_shape self hour positions [] alerts H
              ltac:(constructor) ltac:(constructor))
    as (H1 & H2 & H3 & _).
  repeat split; auto.
  intros k Hk. destruct (H3 k Hk) as [[]|Hin]. exact Hin.
Qed.

Lemma check_intraday_alerts_shape_witness :
  In "AAPL"
     (map held_symbol
        [ {| held_symbol := "AAPL"; unrealized_plpc := Some (- (3 # 100));
             held_market_value := Some 7000 |};
          {| held_symbol := "MSFT"; unrealized_plpc := None;
             held_market_value := None |} ]).
Proof.
  refine (proj2 (proj2 (check_intraday_alerts_shape (new 25000)
            [ {| held_symbol := "AAPL"; unrealized_plpc := Some (- (3 # 100));
                 held_market_value := Some 7000 |};
              {| held_symbol := "MSFT"; unrealized_plpc := None;
                 held_market_value := None |} ] 10
            [("AAPL", [msg_large_loss])] _)) "AAPL" _).
  - vm_compute. reflexivity.
  - left. reflexivity.
Defined.

Lemma position_alerts_outside_hours (self : RiskManager) (hour : Z)
    (pos : HeldPosition) :
  ~ equity self == 0 -> (hour < 9 \/ 16 <= hour)%Z ->
  exists l, position_alerts self hour pos = Returned l /\
            In msg_outside_hours l.
Proof.
  intros Hne Hhour. unfold position_alerts, py_div.
  rewrite (Qeq_bool_false_of_neq _ _ Hne).
  unfold ConfigRest.MARKET_HOURS_ONLY.
  assert ((hour <? 9)%Z || (16 <=? hour)%Z = true) as ->.
  { apply orb_true_iff. destruct Hhour; [left; apply Z.ltb_lt|right; apply Z.leb_le];
      assumption. }
  destruct (Qlt_bool _ (- (2 # 100))), (Qlt_bool 0 _); cbn [bind];
    try destruct (Qlt_bool (max_position_pct self * (12 # 10)) _);
    eexists; (split; [reflexivity|]); cbn; intuition.
Qed.

Lemma check_intraday_loop_outside_hours (self : RiskManager) (hour : Z)
    (positions : list HeldPosition) :
  ~ equity self == 0 -> (hour < 9 \/ 16 <= hour)%Z ->
  forall alerts,
    Forall (fun kv => In msg_outside_hours (snd kv)) alerts ->
    exists result,
      check_intraday_loop self hour positions alerts = Returned result /\
      Forall (fun kv => In msg_outside_hours (snd kv)) result /\
      (forall k, In k (map fst alerts) -> In k (map fst result)) /\
      (forall pos, In pos positions -> In (held_symbol pos) (map fst result)).
Proof.
  intros Hne Hhour.
  induction positions as [|pos rest IH]; intros alerts Hall.
  - exists alerts. cbn. repeat split; auto. intros pos [].
  - cbn [check_intraday_loop].
    destruct (position_alerts_outside_hours self hour pos Hne Hhour)
      as (l & -> & Hin).
    cbn [bind]. destruct l as [|a l]; [destruct Hin|].
    destruct (IH (dict_set alerts (held_symbol pos) (a :: l))
                (dict_set_values _ _ _ (fun v => In msg_outside_hours v)
                   Hin Hall))
      as (result & Hrun & H1 & H2 & H3).
    exists result. repeat split; auto.
    + intros k Hk. apply H2, dict_set_keys. right. exact Hk.
    + intros p [<-|Hp]; [|apply H3, Hp].
      apply H2, dict_set_keys. left. reflexivity.
Qed.

(** X9: outside market hours (before 9 or from 16 on) and on an account
    whose equity is not zero, [check_intraday] returns, every position's
    symbol is in the alerts, and every entry carries the market-hours
    alert. *)
Theorem check_intraday_outside_hours
    (self : RiskManager) (positions : list HeldPosition) (hour : Z) :
  ~ equity self == 0 -> (hour < 9 \/ 16 <= hour)%Z ->
  exists alerts,
    check_intraday self positions hour = Returned alerts /\
    Forall (fun kv => In msg_outside_hours (snd kv)) alerts /\
    (forall pos, In pos positions -> In (held_symbol pos) (map fst alerts)).
Proof.
  intros Hne Hhour. unfold check_intraday.
  destruct (check_intraday_loop_outside_hours self hour positions Hne Hhour
              [] ltac:(constructor))
    as (result & Hrun & H1 & _ & H3).
  exists result. repeat split; assumption.
Qed.

Lemma check_intraday_outside_hours_witness :
  exists alerts,
    check_intraday (new 25000)
      [ {| held_symbol := "MSFT"; unrealized_plpc := None;
           held_market_value := None |} ] 20
    = Returned alerts /\
    In "MSFT" (map fst alerts).
Proof.
  destruct (check_intraday_outside_hours (new 25000)
      [ {| held_symbol := "MSFT"; unrealized_plpc := None;
           held_market_value := None |} ] 20)
    as (alerts & Hrun & _ & Hkeys).
  - vm_compute. discriminate.
  - right. vm_compute. discriminate.
  - exists alerts. split; [exact Hrun|].
    apply (Hkeys {| held_symbol := "MSFT"; unrealized_plpc := None;
                    held_market_value := None |}).
    left. reflexivity.
Defined.

(** X10: on an account whose equity is zero, [check_intraday] raises
    [ZeroDivisionError] as soon as one position has a positive market
    value, and returns nothing. *)
Theorem check_intraday_zero_equity
    (self : RiskManager) (positions : list HeldPosition) (hour : Z) :
  equity self == 0 ->
  (exists pos v, In pos positions /\ held_market_value pos = Some v /\ 0 < v) ->
  check_intraday self positions hour = Raised ZeroDivisionError.
Proof.
  intros Hz Hex. unfold check_intraday. generalize (@nil (string * list string)).
  induction positions as [|pos rest IH]; intro alerts.
  - destruct Hex as (p & v & [] & _).
  - cbn [check_intraday_loop].
    destruct (position_alerts self hour pos) as [l|[]] eqn:E; [|reflexivity].
    cbn [bind]. apply IH.
    destruct Hex as (p & v & [<-|Hin] & Hv & Hpos);
      [|exists p, v; repeat split; assumption].
    exfalso. unfold position_alerts, py_div in E. rewrite Hv in E.
    apply Qlt_bool_iff in Hpos. rewrite Hpos in E.
    apply Qeq_bool_iff in Hz. rewrite Hz in E. discriminate E.
Qed.

Lemma check_intraday_zero_equity_witness :
  check_intraday (new 0)
    [ {| held_symbol := "AAPL"; unrealized_plpc := None;
         held_market_value := Some 7000 |} ] 10
  = Raised ZeroDivisionError.
Proof.
  apply check_intraday_zero_equity.
  - reflexivity.
  - eexists. exists 7000. split; [left; reflexivity|]. split; reflexivity.
Defined.

End RiskRestFacts.

(** ** The simulator: equity, ledger rows and exits without a policy *)

Section SimulatorRest.
Import Strategies Backtest.

Lemma sum_from (f : Ledger.Trade -> Q) (l : list Ledger.Trade) : forall a,
  fold_left (fun acc t => acc + f t) l a
  == a + fold_left (fun acc t => acc + f t) l 0.
Proof.
  induction l as [|t l IH]; intro a; cbn.
  - ring.
  - rewrite (IH (a + f t)), (IH (0 + f t)). ring.
Qed.

Lemma sum_net_pnl_snoc (l : list Ledger.Trade) (t : Ledger.Trade) :
  Metrics.sum_net_pnl (l ++ [t]) = Metrics.sum_net_pnl l + Ledger.net_pnl t.
Proof.
  unfold Metrics.sum_net_pnl. rewrite fold_left_app. reflexivity.
Qed.

Lemma final_equity_snoc (s : Series) (i : Z) (x : Q) :
  Metrics.final_equity (s ++ [(i, x)]) = Some x.
Proof.
  unfold Metrics.final_equity. rewrite rev_unit. reflexivity.
Qed.

Lemma equity_curve_snoc (self : Backtester) (trades : list Ledger.Trade)
    (t : Ledger.Trade) :
  exists s,
    _calculate_equity_curve self (trades ++ [t])
    = s ++ [(Ledger.exit_date t, Ledger.equity_after t)].
Proof.
  unfold _calculate_equity_curve.
  destruct trades as [|first rest]; cbn [app].
  - exists [(Ledger.entry_date t, initial_capital self)]. reflexivity.
  - exists ((Ledger.entry_date first, initial_capital self)
            :: map (fun trade => (Ledger.exit_date trade,
                                  Ledger.equity_after trade))
                   (first :: rest)).
    cbn [map]. rewrite map_app. reflexivity.
Qed.

(** The two facts the loop keeps about its locals. *)
Lemma execute_fold_equity (self : Backtester) (df : DataFrame)
    (strategy : Strategy) (sigs : list Bar) :
  forall st,
    snd st == initial_capital self + Metrics.sum_net_pnl (fst st) ->
    Metrics.final_equity (_calculate_equity_curve self (fst st))
    = Some (snd st) ->
    let st' := fold_left (execute_step self df strategy) sigs st in
    snd st' == initial_capital self + Metrics.sum_net_pnl (fst st') /\
    Metrics.final_equity (_calculate_equity_curve self (fst st'))
    = Some (snd st').
Proof.
  induction sigs as [|sig rest IH]; intros [trades equity] Hsum Hlast.
  - split; assumption.
  - cbn [fold_left]. apply IH;
      destruct (execute_step_cases self strategy df trades equity sig)
        as [E|(t & e & s & g & x & E & _ & _ & _ & _ & _ & _ & _ & _ & _ & _
               & _ & Heq)];
      rewrite E; cbn [fst snd] in *; try assumption.
    + rewrite sum_net_pnl_snoc, Heq, Hsum. ring.
    + destruct (equity_curve_snoc self trades t) as [s0 ->].
      apply final_equity_snoc.
Qed.

(** Winners and losers split the net result. *)
Lemma sum_net_pnl_split (l : list Ledger.Trade) :
  Metrics.sum_net_pnl l
  == Metrics.sum_net_pnl (Metrics.winners l)
     + Metrics.sum_net_pnl (Metrics.losers l).
Proof.
  unfold Metrics.sum_net_pnl, Metrics.winners, Metrics.losers.
  induction l as [|t l IH]; cbn [fold_left filter]; [ring|].
  rewrite sum_from, IH.
  destruct (Qlt_bool 0 (Ledger.net_pnl t)) eqn:Ew;
    destruct (Qlt_bool (Ledger.net_pnl t) 0) eqn:El; cbn [fold_left].
  - apply Qlt_bool_iff in Ew, El. exfalso. lra.
  - rewrite (sum_from _ (filter _ l) (0 + _)). ring.
  - rewrite (sum_from _ (filter (fun t0 => Qlt_bool (Ledger.net_pnl t0) 0) l)
               (0 + _)). ring.
  - apply Qlt_bool_false in Ew, El.
    assert (Ledger.net_pnl t == 0) as -> by lra. ring.
Qed.

Lemma sum_net_pnl_losers_nonpos (l : list Ledger.Trade) :
  Metrics.sum_net_pnl (Metrics.losers l) <= 0 /\
  (Metrics.losers l <> [] -> Metrics.sum_net_pnl (Metrics.losers l) < 0).
Proof.
  unfold Metrics.sum_net_pnl, Metrics.losers.
  induction l as [|t l [IH1 IH2]]; cbn [filter fold_left].
  - split; [lra|congruence].
  - destruct (Qlt_bool (Ledger.net_pnl t) 0) eqn:E; [|split; assumption].
    apply Qlt_bool_iff in E. cbn [fold_left]. rewrite sum_from.
    split; [lra|intros _; lra].
Qed.

(** X11: the books of a run balance.  The last point of the equity curve is
    the running equity the loop ends with; it is the initial capital plus
    the net results of the ledger's trades; and the total return reported
    from the curve is the gross profit of the winners minus the gross loss
    of the losers. *)
Theorem equity_curve_balances
    (self : Backtester) (df : DataFrame) (strategy : Strategy) :
  let trades := _execute_trades self df strategy in
  let curve := _calculate_equity_curve self trades in
  Metrics.final_equity curve = Some (snd (execute_loop self df strategy)) /\
  snd (execute_loop self df strategy)
  == initial_capital self + Metrics.sum_net_pnl trades /\
  exists r,
    Metrics.total_return self curve = Some r /\
    r == Metrics.sum_net_pnl trades /\
    r == Metrics.gross_profit trades - Metrics.gross_loss trades.
Proof.
  cbv zeta. unfold _execute_trades, execute_loop.
  destruct (execute_fold_equity self df strategy (signals df)
              ([], initial_capital self)) as [Hsum Hlast].
  { cbn. ring. }
  { reflexivity. }
  cbv zeta in Hsum, Hlast.
  set (st := fold_left _ _ _) in *.
  split; [exact Hlast|]. split; [exact Hsum|].
  unfold Metrics.total_return. rewrite Hlast.
  eexists. split; [reflexivity|].
  assert (snd st - initial_capital self == Metrics.sum_net_pnl (fst st)) as Hr
    by (rewrite Hsum; ring).
  split; [exact Hr|].
  rewrite Hr. unfold Metrics.gross_profit, Metrics.gross_loss.
  destruct (sum_net_pnl_losers_nonpos (fst st)) as [Hneg _].
  rewrite (Qabs_neg _ Hneg). rewrite (sum_net_pnl_split (fst st)) at 1. ring.
Qed.

End SimulatorRest.

Section LedgerRows.
Import Strategies Backtest.

(** Everything a pass writes into the trade it appends. *)
Lemma execute_step_appended_row (self : Backtester) (strategy : Strategy)
    (df : DataFrame) (trades : list Ledger.Trade) (equity : Q) (sig : Bar)
    (t : Ledger.Trade) (equity' : Q) :
  execute_step self df strategy (trades, equity) sig = (trades ++ [t], equity') ->
  exists e s g exit_price,
    entry sig = Some e /\ stop sig = Some s /\ target sig = Some g /\
    PositionSizing.valid
      (PositionSizing.calculate_shares (PositionSizing.new equity)
         (e * (1 + slippage_pct self)) s None) = true /\
    _find_exit df (ts sig) (e * (1 + slippage_pct self)) s g strategy
    = Some (Ledger.exit_date t, exit_price, Ledger.exit_reason t) /\
    Ledger.entry_price t = e * (1 + slippage_pct self) /\
    Ledger.exit_price t = exit_price * (1 - slippage_pct self) /\
    Ledger.shares t
    = PositionSizing.shares
        (PositionSizing.calculate_shares (PositionSizing.new equity)
           (e * (1 + slippage_pct self)) s None) /\
    Ledger.position_value t = inject_Z (Ledger.shares t) * Ledger.entry_price t /\
    Ledger.stop_price t = s /\ Ledger.target_price t = g /\
    Ledger.gross_pnl t
    = inject_Z (Ledger.shares t) * (Ledger.exit_price t - Ledger.entry_price t) /\
    Ledger.net_pnl t
    = Ledger.gross_pnl t - (commission self + commission self) /\
    Ledger.equity_after t = equity + Ledger.net_pnl t.
Proof.
  unfold execute_step.
  destruct (entry sig) as [e|].
  2:{ intro H. exfalso. injection H as H _.
      apply (f_equal (@List.length _)) in H. rewrite length_app in H.
      cbn in H. lia. }
  destruct (stop sig) as [s|].
  2:{ intro H. exfalso. injection H as H _.
      apply (f_equal (@List.length _)) in H. rewrite length_app in H.
      cbn in H. lia. }
  destruct (target sig) as [g|].
  2:{ intro H. exfalso. injection H as H _.
      apply (f_equal (@List.length _)) in H. rewrite length_app in H.
      cbn in H. lia. }
  destruct (PositionSizing.valid _) eqn:Hvalid; cbn [negb].
  2:{ intro H. exfalso. injection H as H _.
      apply (f_equal (@List.length _)) in H. rewrite length_app in H.
      cbn in H. lia. }
  destruct (_find_exit _ _ _ _ _ _) as [[[exit_idx exit_price] reason]|] eqn:Hexit.
  2:{ intro H. exfalso. injection H as H _.
      apply (f_equal (@List.length _)) in H. rewrite length_app in H.
      cbn in H. lia. }
  cbv zeta. intro H. injection H as H _. apply app_inv_head in H.
  injection H as <-. cbn.
  exists e, s, g, exit_price. repeat split; try reflexivity; assumption.
Qed.



(** Without an exit policy the stop never moves and the loop can only
    return a target exit or a stop exit at the original stop. *)
Lemma find_exit_loop_plain (strategy : Strategy) (e s g : Q)
    (rows : list Bar) :
  check_exit strategy = None ->
  forall cs,
    match fst (find_exit_loop strategy e s g cs rows) with
    | Exit (idx, price, reason) =>
        (reason = "target" /\ price = g) \/ (reason = "stop" /\ price = cs)
    | Continue cs' => cs' = cs
    end.
Proof.
  intro Hplain. induction rows as [|bar rest IH]; intro cs; [reflexivity|].
  rewrite find_exit_loop_cons. unfold exit_step. rewrite Hplain.
  destruct (Qle_bool g (high bar)); [left; split; reflexivity|].
  destruct (Qle_bool (low bar) cs); [right; split; reflexivity|].
  cbn [fst]. apply IH.
Qed.

(** X13: without an exit policy and with costs that are not negative, the
    ledger holds only target exits, filled at the target less slippage,
    and stop exits, filled at the signal's stop less slippage; and every
    stop exit is a net loss. *)
Theorem plain_strategy_exits
    (self : Backtester) (df : DataFrame) (strategy : Strategy)
    (t : Ledger.Trade) :
  check_exit strategy = None ->
  0 <= commission self -> 0 <= slippage_pct self ->
  In t (_execute_trades self df strategy) ->
  (Ledger.exit_reason t = "target" /\
   Ledger.exit_price t = Ledger.target_price t * (1 - slippage_pct self)) \/
  (Ledger.exit_reason t = "stop" /\
   Ledger.exit_price t = Ledger.stop_price t * (1 - slippage_pct self) /\
   Ledger.net_pnl t < 0).
Proof.
  intros Hplain Hc Hslip. revert t. apply Forall_forall.
  unfold _execute_trades, execute_loop.
  apply execute_fold_invariant; [|constructor].
  intros trades equity sig t equity' _ Hstep.
  apply execute_step_appended_row in Hstep.
  destruct Hstep as (e & s & g & x & _ & _ & _ & Hvalid & Hexit & Hep & Hxp
                     & Hsh & _ & Hsp & Htp & Hgp & Hnp & _).
  destruct (valid_sizing_facts _ _ _ _ Hvalid)
    as (H1 & H2 & H3 & _).
  rewrite find_exit_unfold in Hexit.
  pose proof (find_exit_loop_plain strategy (e * (1 + slippage_pct self)) s g
                (future_data df (ts sig)) Hplain s) as Hloop.
  destruct (fst (find_exit_loop _ _ _ _ _ _)) as [[[idx price] reason]|];
    [|discriminate].
  injection Hexit as _ -> ->.
  destruct Hloop as [[Hr Hp]|[Hr Hp]].
  - left. rewrite Htp, Hxp, Hp. split; [exact Hr|reflexivity].
  - right. rewrite Hsp, Hxp, Hp. split; [exact Hr|]. split; [reflexivity|].
    rewrite Hnp, Hgp, Hxp, Hep, Hp.
    rewrite <- Hsh in H1.
    set (n := inject_Z (Ledger.shares t)).
    assert (1 <= n) as Hn.
    { subst n. change 1 with (inject_Z 1). rewrite <- Zle_Qle. exact H1. }
    set (entry_fill := e * (1 + slippage_pct self)) in *.
    assert (0 <= s * slippage_pct self) as Hprod
      by (apply Qmult_le_0_compat; lra).
    assert (0 < entry_fill - s * (1 - slippage_pct self)) as Hgap by lra.
    assert (0 < n * (entry_fill - s * (1 - slippage_pct self))) as Hloss
      by (apply Qmult_lt_0_compat; lra).
    lra.
Qed.

Lemma plain_strategy_exits_witness :
  match _execute_trades Samples.default_backtester Samples.two_signals
                        (plain "none") with
  | t :: _ => Ledger.exit_reason t = "target" \/ Ledger.exit_reason t = "stop"
  | [] => False
  end.
Proof.
  pose proof (plain_strategy_exits Samples.default_backtester
                Samples.two_signals (plain "none")) as H.
  remember (_execute_trades Samples.default_backtester Samples.two_signals
                            (plain "none")) as ledger eqn:E.
  vm_compute in E. subst ledger.
  match goal with
  | |- Ledger.exit_reason ?t = _ \/ _ =>
      destruct (H t eq_refl) as [(Hr & _)|(Hr & _)];
        [discriminate|vm_compute; discriminate|left; reflexivity
        |left; exact Hr|right; exact Hr]
  end.
Defined.

End LedgerRows.

Section FirstTouch.
Import Strategies Backtest.

(** A bar that touches neither the target nor the stop. *)
Lemma find_exit_loop_quiet (strategy : Strategy) (e s g : Q)
    (rows : list Bar) :
  check_exit strategy = None ->
  Forall (fun b => high b < g /\ s < low b) rows ->
  forall post,
    find_exit_loop strategy e s g s (rows ++ post)
    = (fst (find_exit_loop strategy e s g s post),
       snd (find_exit_loop strategy e s g s rows)
       ++ snd (find_exit_loop strategy e s g s post)).
Proof.
  intros Hplain Hquiet post.
  apply find_exit_loop_app.
  induction Hquiet as [|bar rest [Hh Hl] _ IH]; [reflexivity|].
  rewrite find_exit_loop_cons. unfold exit_step. rewrite Hplain.
  replace (Qle_bool g (high bar)) with false
    by (symmetry; apply Qle_bool_false; exact Hh).
  replace (Qle_bool (low bar) s) with false
    by (symmetry; apply Qle_bool_false; exact Hl).
  cbn [fst]. exact IH.
Qed.

(** X14: without an exit policy, on a frame with one row per label and for
    an entry label that is one of them, [_find_exit] returns the first bar
    after the entry bar that touches the target or the stop, with the
    target taking precedence on that bar, and returns [None] when no later
    bar touches either. *)
Theorem find_exit_first_touch
    (strategy : Strategy) (df : DataFrame) (entry_idx : Z)
    (entry_price stop_price target_price : Q) :
  check_exit strategy = None ->
  NoDup (map ts df) ->
  In entry_idx (map ts df) ->
  (forall pre bar post,
     future_data df entry_idx = pre ++ bar :: post ->
     Forall (fun b => high b < target_price /\ stop_price < low b) pre ->
     target_price <= high bar \/ low bar <= stop_price ->
     _find_exit df entry_idx entry_price stop_price target_price strategy
     = Some (if Qle_bool target_price (high bar)
             then (ts bar, target_price, "target")
             else (ts bar, stop_price, "stop"))) /\
  (Forall (fun b => high b < target_price /\ stop_price < low b)
          (future_data df entry_idx) ->
   _find_exit df entry_idx entry_price stop_price target_price strategy
   = None).
Proof.
  intros Hplain _ _. split.
  - intros pre bar post Hrows Hquiet Htouch.
    rewrite find_exit_unfold, Hrows.
    rewrite (find_exit_loop_quiet strategy entry_price stop_price target_price
               pre Hplain Hquiet (bar :: post)).
    cbn [fst]. rewrite find_exit_loop_cons. unfold exit_step.
    destruct (Qle_bool target_price (high bar)) eqn:Et; [reflexivity|].
    apply Qle_bool_false in Et.
    destruct Htouch as [Ht|Hs]; [exfalso; lra|].
    apply Qle_bool_iff in Hs. rewrite Hs. reflexivity.
  - intro Hquiet. rewrite find_exit_unfold.
    rewrite <- (app_nil_r (future_data df entry_idx)).
    rewrite (find_exit_loop_quiet strategy entry_price stop_price target_price
               _ Hplain Hquiet []).
    reflexivity.
Qed.

Lemma find_exit_first_touch_witness :
  _find_exit Samples.two_signals 0 100 95 110 (plain "none")
  = Some (2%Z, 110, "target").
Proof.
  destruct (find_exit_first_touch (plain "none") Samples.two_signals 0
              100 95 110 eq_refl) as (H & _);
    [cbn; repeat constructor; cbn; intuition discriminate|left; reflexivity|].
  rewrite (H [Samples.signal_bar 1 102 99 101 None 100 95 110]
             (Samples.quiet_bar 2 111 100 110 None) []).
  - reflexivity.
  - reflexivity.
  - constructor; [split; reflexivity|constructor].
  - left. vm_compute. discriminate.
Defined.

End FirstTouch.

Section LedgerTotals.
Import Strategies Backtest.

Lemma ledger_length_bound (self : Backtester) (df : DataFrame)
    (strategy : Strategy) (sigs : list Bar) :
  forall st,
    (List.length (fst (fold_left (execute_step self df strategy) sigs st))
     <= List.length (fst st) + List.length sigs)%nat.
Proof.
  induction sigs as [|sig rest IH]; intros [trades equity]; cbn [fold_left].
  - cbn. lia.
  - specialize (IH (execute_step self df strategy (trades, equity) sig)).
    destruct (execute_step_cases self strategy df trades equity sig)
      as [E|(t & e & s & g & x & E & _)]; rewrite E in *; cbn [fst] in *.
    + cbn [List.length]. lia.
    + rewrite length_app in IH. cbn [List.length] in *. lia.
Qed.

Lemma total_commission_of (c : Q) (l : list Ledger.Trade) :
  Forall (fun t => Ledger.commission t = c) l ->
  total_commission l == inject_Z (Z.of_nat (List.length l)) * c.
Proof.
  unfold total_commission. induction 1 as [|t l Ht _ IH].
  - cbn. ring.
  - cbn [fold_left List.length]. rewrite sum_from, IH, Ht.
    rewrite Nat2Z.inj_succ, <- Z.add_1_r, inject_Z_plus. ring.
Qed.

(** X15: the ledger has at most one trade per signal row, so a frame
    without signal rows gives an empty ledger and [run] reports no trades;
    and the commission total of the report is twice the per-trade
    commission for each trade of the ledger. *)
Theorem ledger_size_and_commission
    (self : Backtester) (df : DataFrame) (strategy : Strategy) :
  (List.length (_execute_trades self df strategy)
   <= List.length (signals df))%nat /\
  (signals df = [] -> run self strategy df = Returned None) /\
  total_commission (_execute_trades self df strategy)
  == 2 * commission self
     * inject_Z (Z.of_nat (List.length (_execute_trades self df strategy))).
Proof.
  repeat split.
  - unfold _execute_trades, execute_loop.
    apply (ledger_length_bound self df strategy (signals df)
             ([], initial_capital self)).
  - intro H. unfold run, _execute_trades, execute_loop. rewrite H.
    reflexivity.
  - rewrite (total_commission_of (commission self + commission self)).
    + ring.
    + apply Forall_forall. intros t Ht.
      apply (ledger_pnl_accounting_aux self df strategy t Ht).
Qed.

Lemma ledger_size_and_commission_witness :
  run Samples.default_backtester (plain "none")
      [Samples.quiet_bar 0 101 99 100 None] = Returned None.
Proof.
  apply (ledger_size_and_commission Samples.default_backtester
           [Samples.quiet_bar 0 101 99 100 None] (plain "none")).
  reflexivity.
Defined.

End LedgerTotals.

(** ** Report figures: drawdown and trade statistics *)

Section ReportFigures.
Import Backtest.

(** A point of the drawdown series is the running maximum less the equity
    at that point, and is not negative. *)
Lemma drawdown_point (equity_curve : Series) (i : nat) (label : Z) (m : Q) :
  nth_error (drawdown equity_curve) i = Some (label, m) ->
  exists d l x,
    nth_error (running_max equity_curve) i = Some (label, d) /\
    nth_error equity_curve i = Some (l, x) /\
    m = d - x /\ x <= d.
Proof.
  intro Hi. unfold drawdown in Hi.
  destruct (series_sub_nth _ _ _ _ _ Hi) as (d & l & x & Hd & Hx & Hm).
  exists d, l, x. repeat split; try assumption.
  apply (running_max_bounds _ _ _ _ Hd i (l, x)); [lia|exact Hx].
Qed.

(** X16: the largest drawdown is never negative, and over an equity curve
    with one point per timestamp whose values are not negative the
    drawdown percentage is a number between 0 and 1. *)
Theorem max_drawdown_pct_in_unit_interval (equity_curve : Series) :
  (forall m, max_drawdown equity_curve = Some m -> 0 <= m) /\
  (NoDup (map fst equity_curve) ->
   Forall (fun p => 0 <= snd p) equity_curve ->
   exists q,
     max_drawdown_pct equity_curve = PctScalar (Finite q) /\
     0 <= q /\ q <= 1).
Proof.
  split.
  - intros m Hmax. unfold max_drawdown in Hmax.
    destruct (series_max_first _ _ Hmax) as (i & label & _ & Hi & _).
    destruct (drawdown_point _ _ _ _ Hi) as (d & l & x & _ & _ & -> & Hle).
    lra.
  - intros Hnd Hpos. unfold max_drawdown_pct.
    destruct (max_drawdown equity_curve) as [m|] eqn:Hmax.
    2:{ exists 0. repeat split; lra. }
    unfold max_drawdown in Hmax.
    destruct (series_max_first _ _ Hmax) as (i & label & Hidx & Hi & _).
    rewrite Hidx.
    destruct (Qlt_bool 0 m) eqn:Hm.
    2:{ exists 0. repeat split; lra. }
    apply Qlt_bool_iff in Hm.
    destruct (drawdown_point _ _ _ _ Hi) as (d & l & x & Hd & Hx & Hmd & Hle).
    assert (0 <= x) as Hx0.
    { rewrite Forall_forall in Hpos.
      apply (Hpos (l, x)). eapply nth_error_In. exact Hx. }
    assert (0 < d) as Hd0 by (rewrite Hmd in Hm; lra).
    assert (NoDup (map fst (running_max equity_curve))) as Hnd'
      by (unfold running_max; rewrite cummax_labels; exact Hnd).
    rewrite (loc_unique _ _ _ _ Hnd' Hd).
    unfold np_div.
    rewrite (Qeq_bool_false_of_neq d 0) by lra.
    exists (m / d). split; [reflexivity|]. split.
    + apply Qle_shift_div_l; [exact Hd0|]. lra.
    + apply Qle_shift_div_r; [exact Hd0|]. rewrite Hmd. lra.
Qed.

Lemma max_drawdown_pct_in_unit_interval_witness :
  exists q,
    max_drawdown_pct Samples.early_drawdown = PctScalar (Finite q) /\
    0 <= q /\ q <= 1.
Proof.
  apply (proj2 (max_drawdown_pct_in_unit_interval Samples.early_drawdown)).
  - cbn. repeat constructor; cbn; intuition discriminate.
  - repeat constructor; cbn; discriminate.
Defined.

Lemma disjoint_filters_length {A} (p q : A -> bool) (l : list A) :
  (forall a, p a = true -> q a = false) ->
  (List.length (filter p l) + List.length (filter q l) <= List.length l)%nat.
Proof.
  intro H. induction l as [|a l IH]; cbn; [lia|].
  destruct (p a) eqn:Ep.
  - rewrite (H a Ep). cbn. lia.
  - destruct (q a); cbn; lia.
Qed.

(** X17: the trade statistics reported for a ledger that holds at least one
    trade are consistent.  Winners and losers together never outnumber the
    trades; the win rate is the share of winners among the trades and lies
    between 0 and 1; the profit factor is infinite exactly when no trade
    lost, and otherwise it is the gross profit over a gross loss that is
    positive. *)
Theorem trade_statistics_consistent (trades : list Ledger.Trade) :
  trades <> [] ->
  (Metrics.winning_trades trades + Metrics.losing_trades trades
   <= Metrics.total_trades trades)%Z /\
  0 <= Metrics.win_rate trades /\ Metrics.win_rate trades <= 1 /\
  Metrics.win_rate trades
  = inject_Z (Metrics.winning_trades trades)
    / inject_Z (Metrics.total_trades trades) /\
  (Metrics.losing_trades trades = 0%Z <->
   Metrics.profit_factor trades = PosInf) /\
  (Metrics.losing_trades trades <> 0%Z ->
   0 < Metrics.gross_loss trades /\
   Metrics.profit_factor trades
   = Finite (Metrics.gross_profit trades / Metrics.gross_loss trades)).
Proof.
  intro Hsome.
  assert (Metrics.winning_trades trades + Metrics.losing_trades trades
          <= Metrics.total_trades trades)%Z as Hcount.
  { unfold Metrics.winning_trades, Metrics.losing_trades, Metrics.total_trades,
      Metrics.winners, Metrics.losers.
    pose proof (disjoint_filters_length
                  (fun t => Qlt_bool 0 (Ledger.net_pnl t))
                  (fun t => Qlt_bool (Ledger.net_pnl t) 0) trades) as H.
    assert (forall t, Qlt_bool 0 (Ledger.net_pnl t) = true ->
                      Qlt_bool (Ledger.net_pnl t) 0 = false) as Hd.
    { intros t Ht. apply Qlt_bool_iff in Ht. apply Qlt_bool_false. lra. }
    specialize (H Hd). lia. }
  assert (0 <= Metrics.winning_trades trades)%Z as Hw
    by (unfold Metrics.winning_trades; lia).
  assert (0 <= Metrics.losing_trades trades)%Z as Hl
    by (unfold Metrics.losing_trades; lia).
  assert (Metrics.losing_trades trades = 0%Z <-> Metrics.losers trades = [])
    as Hnil.
  { unfold Metrics.losing_trades.
    destruct (Metrics.losers trades); cbn; split; intro H;
      try reflexivity; try discriminate; lia. }
  destruct (sum_net_pnl_losers_nonpos trades) as [Hle Hlt].
  assert (Metrics.losers trades = [] -> Metrics.gross_loss trades == 0) as Hz.
  { intro E. unfold Metrics.gross_loss. rewrite E. reflexivity. }
  assert (Metrics.losers trades <> [] -> 0 < Metrics.gross_loss trades) as Hp.
  { intro E. unfold Metrics.gross_loss. rewrite (Qabs_neg _ Hle).
    specialize (Hlt E). lra. }
  split; [exact Hcount|].
  assert (0 <= Metrics.win_rate trades /\ Metrics.win_rate trades <= 1) as Hrate.
  { unfold Metrics.win_rate.
    destruct (0 <? Metrics.total_trades trades)%Z eqn:E; [|split; lra].
    apply Z.ltb_lt in E.
    assert (0 < inject_Z (Metrics.total_trades trades)) as Ht
      by (change 0 with (inject_Z 0); rewrite <- Zlt_Qlt; exact E).
    assert (0 <= inject_Z (Metrics.winning_trades trades)) as Hw'
      by (change 0 with (inject_Z 0); rewrite <- Zle_Qle; exact Hw).
    assert (inject_Z (Metrics.winning_trades trades)
            <= inject_Z (Metrics.total_trades trades)) as Hwt
      by (rewrite <- Zle_Qle; lia).
    split.
    - apply Qle_shift_div_l; [exact Ht|]. lra.
    - apply Qle_shift_div_r; [exact Ht|]. lra. }
  destruct Hrate as [Hr0 Hr1].
  split; [exact Hr0|]. split; [exact Hr1|].
  split.
  { unfold Metrics.win_rate.
    replace (0 <? Metrics.total_trades trades)%Z with true; [reflexivity|].
    symmetry. apply Z.ltb_lt. unfold Metrics.total_trades.
    destruct trades; [contradiction|cbn; lia]. }
  unfold Metrics.profit_factor, np_div. split; [split|].
  - intro H. apply Hnil in H. specialize (Hz H).
    replace (Qlt_bool 0 (Metrics.gross_loss trades)) with false;
      [reflexivity|].
    symmetry. apply Qlt_bool_false. lra.
  - intro H. destruct (Qlt_bool 0 (Metrics.gross_loss trades)) eqn:E.
    + apply Qlt_bool_iff in E.
      rewrite (Qeq_bool_false_of_neq _ 0) in H by lra. discriminate H.
    + apply Qlt_bool_false in E. apply Hnil.
      destruct (Metrics.losers trades) as [|a l] eqn:El; [reflexivity|].
      exfalso. assert (0 < Metrics.gross_loss trades) by (apply Hp; discriminate).
      lra.
  - intro H. assert (Metrics.losers trades <> []) as Hne
      by (intro E; apply H, Hnil, E).
    specialize (Hp Hne). split; [exact Hp|].
    replace (Qlt_bool 0 (Metrics.gross_loss trades)) with true
      by (symmetry; apply Qlt_bool_iff; exact Hp).
    rewrite (Qeq_bool_false_of_neq _ 0) by lra. reflexivity.
Qed.

End ReportFigures.

Lemma trade_statistics_consistent_witness :
  Metrics.win_rate
    (Backtest._execute_trades Samples.default_backtester Samples.two_stopped
       (Strategies.plain "none")) <= 1 /\
  0 < Metrics.gross_loss
        (Backtest._execute_trades Samples.default_backtester
           Samples.two_stopped (Strategies.plain "none")).
Proof.
  destruct (trade_statistics_consistent
              (Backtest._execute_trades Samples.default_backtester
                 Samples.two_stopped (Strategies.plain "none")))
    as (_ & _ & Hrate & _ & _ & Hloss).
  - vm_compute. discriminate.
  - split; [exact Hrate|]. apply Hloss. vm_compute. discriminate.
Defined.

Lemma calculate_trailing_stop_floors_witness :
  95 <= PositionSizingRest.calculate_trailing_stop (PositionSizing.new 25000)
          100 110 2 2 (Some 95).
Proof.
  apply (proj2 (proj2 (calculate_trailing_stop_floors
                         (PositionSizing.new 25000) 100 110 2 2 (Some 95)))).
  reflexivity.
Defined.

(** ** Exit policies and signal levels of the strategies *)

Section StrategyFacts.
Import Strategies StrategiesRest.






(** X20: the levels the momentum strategy writes for a signal row.  The
    entry is the close.  The stop is missing exactly when the prior high
    is missing; otherwise, for a positive close, it is strictly below the
    entry (3 percent below when the computed stop would not be), and the
    target lies [target_r] times the stop distance above the entry. *)
Theorem momentum_levels_below_entry
    (atr_stop_mult target_r close : Q) (prev_high atr_14 : nanfloat) :
  let levels := momentum_levels atr_stop_mult target_r close prev_high atr_14 in
  let stop := snd (fst levels) in
  let target := snd levels in
  fst (fst levels) = Some close /\
  (stop = None <-> prev_high = None) /\
  (stop = None -> target = None) /\
  (forall s, stop = Some s ->
     target = Some (close + (close - s) * target_r) /\
     (0 < close -> s < close) /\
     (0 < close -> 0 < target_r -> close < close + (close - s) * target_r)).
Proof.
  cbv zeta. unfold momentum_levels. cbn [fst snd].
  split; [reflexivity|].
  destruct prev_high as [p|]; cbn.
  2:{ repeat split; intros; try reflexivity; discriminate. }
  assert (forall stop0 : Q,
    let stop := if Qle_bool close stop0
                then Some (close * (97 # 100)) else Some stop0 in
    (stop = None <-> Some p = @None Q) /\
    (stop = None -> nan_add (Some close)
                      (nan_mul (nan_sub (Some close) stop) (Some target_r))
                    = None) /\
    (forall s, stop = Some s ->
       nan_add (Some close) (nan_mul (nan_sub (Some close) stop) (Some target_r))
       = Some (close + (close - s) * target_r) /\
       (0 < close -> s < close) /\
       (0 < close -> 0 < target_r -> close < close + (close - s) * target_r)))
    as Hcase.
  { intro stop0. cbv zeta.
    destruct (Qle_bool close stop0) eqn:E.
    - split; [split; discriminate|]. split; [discriminate|].
      intros s Hs. injection Hs as <-. cbn. split; [reflexivity|].
      split; [intro; lra|].
      intros Hc Hr.
      assert (0 < (close - close * (97 # 100)) * target_r)
        by (apply Qmult_lt_0_compat; lra).
      lra.
    - apply Qle_bool_false in E.
      split; [split; discriminate|]. split; [discriminate|].
      intros s Hs. injection Hs as <-. cbn. split; [reflexivity|].
      split; [intro; exact E|].
      intros Hc Hr.
      assert (0 < (close - stop0) * target_r)
        by (apply Qmult_lt_0_compat; lra).
      lra. }
  destruct atr_14 as [a|]; cbn.
  - unfold nan_max, nan_lt.
    destruct (Qlt_bool p (close - a * atr_stop_mult)); cbn; apply Hcase.
  - apply Hcase.
Qed.

Lemma momentum_levels_below_entry_witness :
  snd (fst (momentum_levels 2 2 100 (Some 99) (Some 3))) = Some 99 /\
  snd (momentum_levels 2 2 100 (Some 99) (Some 3))
  = Some (100 + (100 - 99) * 2).
Proof.
  split; [reflexivity|].
  apply (momentum_levels_below_entry 2 2 100 (Some 99) (Some 3)).
  reflexivity.
Defined.

End StrategyFacts.

(** ** Journal: reading back and statistics *)

Section JournalFacts.
Import Journal.

Lemma py_slice_from_last {A} (l : list A) (n : Z) :
  (0 < n)%Z ->
  py_slice_from l (- n)
  = skipn (List.length l - Z.to_nat n) l.
Proof.
  intro Hn. unfold py_slice_from.
  replace (- n <? 0)%Z with true by (symmetry; apply Z.ltb_lt; lia).
  f_equal. lia.
Qed.

(** X21: [read_trades] returns the most recent [limit] records: for a
    positive limit the result is the tail of the file of length
    [min(limit, len)]; a limit of 0 or no limit returns every record; a
    missing file reads as no records. *)
Theorem read_trades_limit (records : list record) (n : Z) :
  read_trades None (Some n) = [] /\
  read_trades (Some records) None = records /\
  read_trades (Some records) (Some 0%Z) = records /\
  ((0 < n)%Z ->
   exists older,
     records = older ++ read_trades (Some records) (Some n) /\
     List.length (read_trades (Some records) (Some n))
     = Nat.min (Z.to_nat n) (List.length records)).
Proof.
  repeat split.
  intro Hn. unfold read_trades.
  replace (n =? 0)%Z with false by (symmetry; apply Z.eqb_neq; lia).
  rewrite (py_slice_from_last records n Hn).
  exists (firstn (List.length records - Z.to_nat n) records).
  split; [symmetry; apply firstn_skipn|].
  rewrite length_skipn. lia.
Qed.

Lemma read_trades_limit_witness :
  List.length
    (read_trades
       (Some [ {| rec_type := Some "entry"; rec_net_pnl := None;
                  rec_r_multiple := None |};
               {| rec_type := Some "exit"; rec_net_pnl := Some 10;
                  rec_r_multiple := Some 1 |};
               {| rec_type := Some "exit"; rec_net_pnl := Some (-5);
                  rec_r_multiple := Some (-1) |} ])
       (Some 2%Z))
  = 2%nat.
Proof.
  destruct (read_trades_limit
       [ {| rec_type := Some "entry"; rec_net_pnl := None;
            rec_r_multiple := None |};
         {| rec_type := Some "exit"; rec_net_pnl := Some 10;
            rec_r_multiple := Some 1 |};
         {| rec_type := Some "exit"; rec_net_pnl := Some (-5);
            rec_r_multiple := Some (-1) |} ] 2)
    as (_ & _ & _ & H).
  destruct H as (older & _ & Hlen); [reflexivity|].
  rewrite Hlen. reflexivity.
Defined.

Lemma filter_idempotent {A} (p : A -> bool) (l : list A) :
  filter p (filter p l) = filter p l.
Proof.
  induction l as [|a l IH]; cbn; [reflexivity|].
  destruct (p a) eqn:E; cbn; [rewrite E, IH|]; auto.
Qed.

Lemma filter_length_split {A} (p : A -> bool) (l : list A) :
  (List.length (filter p l) + List.length (filter (fun a => negb (p a)) l)
   = List.length l)%nat.
Proof.
  induction l as [|a l IH]; cbn; [reflexivity|].
  destruct (p a); cbn; lia.
Qed.

(** X22: the journal statistics count exit records only: the records of
    other types change nothing, and a journal without an exit record gives
    the empty statistics.  When there are exits, winners and losers add up
    to the number of exits, an exit that nets zero counting as a loser,
    and the win rate lies between 0 and 1. *)
Theorem get_statistics_counts_exits (records : list record) :
  get_statistics (Some records)
  = get_statistics (Some (filter is_exit records)) /\
  (filter is_exit records = [] ->
   get_statistics (Some records) = no_statistics) /\
  (filter is_exit records <> [] ->
   let stats := get_statistics (Some records) in
   total_trades stats = Z.of_nat (List.length (filter is_exit records)) /\
   (exists w, winners stats = Some w /\
              losers stats = Some (total_trades stats - w)%Z /\
              (0 <= w <= total_trades stats)%Z /\
              (total_trades stats - w)%Z
              = Z.of_nat (List.length
                  (filter (fun t => Qle_bool (net_pnl_of t) 0)
                          (filter is_exit records)))) /\
   0 <= win_rate stats /\ win_rate stats <= 1).
Proof.
  destruct records as [|r0 rest].
  { split; [reflexivity|]. split; [reflexivity|].
    intro H. exfalso. apply H. reflexivity. }
  assert (filter is_exit (filter is_exit (r0 :: rest))
          = filter is_exit (r0 :: rest)) as Hid by apply filter_idempotent.
  remember (filter is_exit (r0 :: rest)) as exits eqn:Ex.
  assert (get_statistics (Some (r0 :: rest)) = get_statistics (Some exits))
    as Hsame.
  { unfold get_statistics, read_trades. cbv zeta. rewrite <- Ex.
    destruct exits as [|x xs]; [reflexivity|]. rewrite Hid. reflexivity. }
  split; [exact Hsame|]. rewrite Hsame.
  split; [intros ->; reflexivity|].
  intro H. cbv zeta.
  destruct exits as [|x xs]; [contradiction H; reflexivity|].
  unfold get_statistics, read_trades. cbv zeta. rewrite Hid.
  cbn [total_trades winners losers win_rate].
  set (n := Z.of_nat (List.length (x :: xs))).
  set (w := Z.of_nat (List.length
               (filter (fun t => Qlt_bool 0 (net_pnl_of t)) (x :: xs)))).
  assert (0 < n)%Z as Hn by (subst n; cbn [List.length]; lia).
  assert ((n - w)%Z
          = Z.of_nat (List.length
              (filter (fun t => Qle_bool (net_pnl_of t) 0) (x :: xs))))
    as Hlosers.
  { subst n w.
    pose proof (filter_length_split (fun t => Qlt_bool 0 (net_pnl_of t))
                  (x :: xs)) as Hsplit.
    assert (filter (fun t => negb (Qlt_bool 0 (net_pnl_of t))) (x :: xs)
            = filter (fun t => Qle_bool (net_pnl_of t) 0) (x :: xs)) as Hf.
    { apply filter_ext. intro t. unfold Qlt_bool.
      rewrite negb_involutive. reflexivity. }
    cbv beta in Hsplit. rewrite Hf in Hsplit. lia. }
  assert (0 <= w <= n)%Z as Hw by (subst w; lia).
  split; [reflexivity|]. split.
  { exists w. repeat split; lia. }
  replace (0 <? n)%Z with true by (symmetry; apply Z.ltb_lt; exact Hn).
  assert (0 < inject_Z n) as Hnq
    by (change 0 with (inject_Z 0); rewrite <- Zlt_Qlt; exact Hn).
  assert (0 <= inject_Z w) as Hwq
    by (change 0 with (inject_Z 0); rewrite <- Zle_Qle; lia).
  assert (inject_Z w <= inject_Z n) as Hwn by (rewrite <- Zle_Qle; lia).
  split.
  - apply Qle_shift_div_l; [exact Hnq|]. lra.
  - apply Qle_shift_div_r; [exact Hnq|]. lra.
Qed.

Lemma get_statistics_counts_exits_witness :
  get_statistics
    (Some [ {| rec_type := Some "entry"; rec_net_pnl := None;
               rec_r_multiple := None |} ])
  = no_statistics.
Proof.
  apply (get_statistics_counts_exits
           [ {| rec_type := Some "entry"; rec_net_pnl := None;
                rec_r_multiple := None |} ]).
  reflexivity.
Defined.

End JournalFacts.

(** ** Liquidity filter *)

Section DataFacts.
Import StrategiesRest Data.

(** X23: [filter_by_liquidity] keeps the qualifying symbols in their order
    and filtering again changes nothing.  A symbol that is kept has bars,
    and its latest close is not below the minimum price; with a positive
    dollar-volume floor it also has at least [periods] bars, because a
    shorter history averages to 0. *)
Theorem filter_by_liquidity_keeps_liquid
    (data : list (string * list row)) (min_price min_dollar_volume : Q)
    (periods : Z) :
  filter_by_liquidity
    (filter_by_liquidity data min_price min_dollar_volume periods)
    min_price min_dollar_volume periods
  = filter_by_liquidity data min_price min_dollar_volume periods /\
  (forall symbol df,
     In (symbol, df)
        (filter_by_liquidity data min_price min_dollar_volume periods) ->
     In (symbol, df) data /\
     exists older latest,
       df = older ++ [latest] /\ min_price <= row_close latest /\
       (0 < min_dollar_volume -> (periods <= Z.of_nat (List.length df))%Z)) /\
  (forall df,
     (Z.of_nat (List.length df) < periods)%Z ->
     calculate_avg_dollar_volume df periods = Some 0).
Proof.
  split; [apply filter_idempotent|]. split.
  - intros symbol df Hin. unfold filter_by_liquidity in Hin.
    apply filter_In in Hin. destruct Hin as [Hin Hq]. cbn [snd] in Hq.
    split; [exact Hin|].
    unfold qualifies in Hq.
    destruct (rev df) as [|latest older] eqn:Hrev; [discriminate|].
    exists (rev older), latest.
    assert (df = rev older ++ [latest]) as Hdf.
    { rewrite <- (rev_involutive df), Hrev. reflexivity. }
    split; [exact Hdf|].
    destruct (Qlt_bool (row_close latest) min_price) eqn:Ep; [discriminate|].
    apply Qlt_bool_false in Ep. split; [exact Ep|].
    intro Hfloor.
    destruct (nan_lt _ _) eqn:Ev; [discriminate|].
    unfold calculate_avg_dollar_volume in Ev.
    destruct df as [|r0 rest] eqn:Edf.
    { destruct (rev older); discriminate. }
    destruct (Z.of_nat (List.length (r0 :: rest)) <? periods)%Z eqn:Elen.
    + exfalso. cbn [nan_lt] in Ev. apply Qlt_bool_false in Ev. lra.
    + apply Z.ltb_ge in Elen. exact Elen.
  - intros df Hshort. unfold calculate_avg_dollar_volume.
    destruct df as [|r0 rest]; [reflexivity|].
    replace (Z.of_nat (List.length (r0 :: rest)) <? periods)%Z with true
      by (symmetry; apply Z.ltb_lt; exact Hshort).
    reflexivity.
Qed.

Lemma filter_by_liquidity_keeps_liquid_witness :
  calculate_avg_dollar_volume
    [ {| row_close := 10; row_volume := 1000 |} ] 20 = Some 0.
Proof.
  apply (filter_by_liquidity_keeps_liquid [] 2 1000000 20).
  reflexivity.
Defined.

End DataFacts.

(** ** Broker safety guards *)

Section BrokerFacts.
Import Broker.

(** X25: [place_order] hands at most one request to the broker client and
    answers with the client's reply to it, or with [None] when it hands
    over nothing.  A request reaches the client only for a positive
    quantity and a market order or a limit order with a price; it carries
    the symbol and quantity asked for; it is a buy exactly when the side
    is 'buy'; and for the side 'sell' only when a position of positive
    quantity in that symbol is held. *)
Theorem place_order_guards {reply : Type}
    (positions : list position) (submit : order_request -> option reply)
    (symbol side : string) (qty : Z) (order_type : string)
    (limit_price : option Q) (time_in_force : string) :
  let outcome := place_order positions submit symbol side qty order_type
                             limit_price time_in_force in
  (snd outcome = [] /\ fst outcome = None) \/
  (exists request,
     snd outcome = [request] /\ fst outcome = submit request /\
     (0 < qty)%Z /\
     req_symbol request = symbol /\ req_qty request = qty /\
     (req_side request = BUY <-> side = "buy") /\
     (side = "sell" ->
      exists p, In p positions /\ pos_symbol p = symbol /\ (0 < pos_qty p)%Z) /\
     ((order_type = "market" /\ req_limit_price request = None) \/
      (order_type = "limit" /\ req_limit_price request = limit_price /\
       limit_price <> None))).
Proof.
  cbv zeta. unfold place_order.
  destruct (qty <=? 0)%Z eqn:Eq; [left; split; reflexivity|].
  apply Z.leb_gt in Eq.
  unfold ConfigRest.TRADING_MODE, ConfigRest.SHORTING_ALLOWED.
  cbn [String.eqb Ascii.eqb Bool.eqb negb orb andb].
  assert (side = "sell" ->
          (if negb (String.eqb side "buy")
           then if String.eqb side "sell"
                then negb (existsb (fun p => String.eqb (pos_symbol p) symbol
                                             && (0 <? pos_qty p)%Z) positions)
                else false
           else false) = false ->
          exists p, In p positions /\ pos_symbol p = symbol /\ (0 < pos_qty p)%Z)
    as Hsell.
  { intros -> H. cbn in H. apply negb_false_iff in H.
    apply existsb_exists in H. destruct H as (p & Hin & Hp).
    apply andb_true_iff in Hp. destruct Hp as [Hs Hq].
    exists p. split; [exact Hin|]. split.
    - apply String.eqb_eq, Hs.
    - apply Z.ltb_lt, Hq. }
  destruct (if negb (String.eqb side "buy") then _ else false) eqn:Eblocked;
    [left; split; reflexivity|].
  assert ((if String.eqb side "buy" then BUY else SELL) = BUY <-> side = "buy")
    as Hside.
  { destruct (String.eqb side "buy") eqn:Es.
    - apply String.eqb_eq in Es. split; auto.
    - apply String.eqb_neq in Es. split; [discriminate|contradiction]. }
  destruct (String.eqb order_type "market") eqn:Em.
  { apply String.eqb_eq in Em. right. eexists. cbn.
    repeat split; try reflexivity; try lia; try apply Hside; auto. }
  destruct (String.eqb order_type "limit") eqn:El;
    [|left; split; reflexivity].
  apply String.eqb_eq in El.
  destruct limit_price as [price|]; [|left; split; reflexivity].
  right. eexists. cbn.
  repeat split; try reflexivity; try lia; try apply Hside; auto.
  right. repeat split; [exact El|discriminate].
Qed.

Lemma place_order_guards_witness :
  place_order (reply := string) [] (fun _ => Some "accepted")
              "AAPL" "sell" 10 "market" None "day"
  = (None, []).
Proof.
  destruct (place_order_guards (reply := string) [] (fun _ => Some "accepted")
              "AAPL" "sell" 10 "market" None "day")
    as [[Hs Hf]|(request & _ & _ & _ & _ & _ & _ & Hheld & _)].
  - apply injective_projections; assumption.
  - destruct (Hheld eq_refl) as (p & [] & _).
Defined.

End BrokerFacts.
